(** * Branding assets: service and hook

    A shallow embedding of [services/BrandingAssetsService] (the class
    [BrandingAssetsService]) and of [hooks/useBrandingAssets] (the hook
    [useBrandingAssets] with its [refreshAssets] callback), followed by the
    properties of the fallback resolution, of the read path and of the
    write path.

    Strings are ECMAScript strings: finite sequences of UTF-16 code units.
    Asynchronous functions are computations over an explicit world (the hook
    state, the requests sent to the network, the console) that complete
    either normally or by throwing. *)

From Stdlib Require Import List NArith ZArith Bool Ascii String Lia.
Import ListNotations.

Set Implicit Arguments.

(** ** ECMAScript strings *)

Module Js.

Definition code_unit := N.
Definition jsstring := list code_unit.

(** A string literal of the source whose characters are all ASCII. *)
Definition lit (s : string) : jsstring :=
  map N_of_ascii (list_ascii_of_string s).

(** [WhiteSpace] and [LineTerminator] code points, the ones
    [String.prototype.trim] strips.  All lie in the basic plane, so the
    test is on one code unit. *)
Definition isWhiteSpace (c : code_unit) : bool :=
  ((c =? 9) || (c =? 10) || (c =? 11) || (c =? 12) || (c =? 13)
   || (c =? 32) || (c =? 160) || (c =? 5760)
   || ((8192 <=? c) && (c <=? 8202))
   || (c =? 8232) || (c =? 8233) || (c =? 8239) || (c =? 8287)
   || (c =? 12288) || (c =? 65279))%N.

Fixpoint trimStart (s : jsstring) : jsstring :=
  match s with
  | [] => []
  | c :: s' => if isWhiteSpace c then trimStart s' else s
  end.

Definition trimEnd (s : jsstring) : jsstring := rev (trimStart (rev s)).

(** [s.trim()] *)
Definition trim (s : jsstring) : jsstring := trimEnd (trimStart s).

(** [s !== ''] and, for a string, the truthiness of [s]. *)
Definition nonEmpty (s : jsstring) : bool :=
  match s with [] => false | _ :: _ => true end.

(** A string that is empty or made of white space only. *)
Definition blank (s : jsstring) : bool := forallb isWhiteSpace s.

(** [`${v}`] for a value of type [string | undefined]. *)
Definition toString (v : option jsstring) : jsstring :=
  match v with Some s => s | None => lit "undefined" end.

(** Truthiness of a value of type [string | undefined]. *)
Definition truthy (v : option jsstring) : bool :=
  match v with Some s => nonEmpty s | None => false end.

End Js.
Import Js.


(** ** Data model ([services/BrandingAssetsService]) *)

(** [type BrandingAssetType = 'logo' | 'footer'] *)
Inductive BrandingAssetType := logo | footer.

(** The string a [BrandingAssetType] is at run time. *)
Definition typeName (t : BrandingAssetType) : jsstring :=
  match t with logo => lit "logo" | footer => lit "footer" end.

(** [interface BrandingAsset]; an optional field is [None] when missing. *)
Module BrandingAsset.
Record t := mk {
  assetType : BrandingAssetType;
  contentType : option jsstring;
  fileName : option jsstring;
  text : option jsstring;
  url : option jsstring
}.
End BrandingAsset.

(** A [File] of the browser, as far as the service looks at it. *)
Record File := { file_name : jsstring; file_type : jsstring; file_size : N }.

(** [interface UploadAssetRequest]; [UpdateAssetRequest] has the same fields. *)
Module UploadAssetRequest.
Record t := mk {
  assetType : BrandingAssetType;
  file : option File;
  text : option jsstring
}.
End UploadAssetRequest.
Module UpdateAssetRequest := UploadAssetRequest.

(** ** Values thrown and completions *)

(** A thrown value: an [Error] instance with its [message], or anything
    else ([err instanceof Error] is false on it). *)
Inductive Thrown :=
| ErrorObject (message : jsstring)
| OtherValue (repr : jsstring).

Inductive Completion (A : Type) :=
| Return (a : A)
| Throw (e : Thrown).
Arguments Return {A} a.
Arguments Throw {A} e.

(** [Promise.allSettled] results. *)
Inductive Settled (A : Type) :=
| Fulfilled (value : A)
| Rejected (reason : Thrown).
Arguments Fulfilled {A} value.
Arguments Rejected {A} reason.

(** ** The network, as [fetch] shows it *)

Inductive Method := GET | POST | PUT | DELETE.

Inductive FormDataValue :=
| FormText (s : jsstring)
| FormFile (f : File).

Definition FormData := list (jsstring * FormDataValue).

Record Request := {
  input : jsstring;
  method : Method;
  headers : list (jsstring * jsstring);
  body : option FormData
}.

(** A [Response]: [text()] and [json()] may themselves reject; [json()] is
    the parsed body as the service types it, a [BrandingAsset] or [null]. *)
Module Response.
Record t := mk {
  status : Z;
  statusText : jsstring;
  text : Completion jsstring;
  json : Completion (option BrandingAsset.t)
}.
(** [response.ok]: the status is in the range 200-299. *)
Definition ok (r : t) : bool := ((200 <=? status r) && (status r <=? 299))%Z.
End Response.

(** ** The world a computation runs in *)

(** The four [useState] cells of [useBrandingAssets]. *)
Record UseBrandingAssetsReturn := {
  logoUrl : jsstring;
  footerText : jsstring;
  loading : bool;
  error : option jsstring
}.

Inductive ConsoleLevel := LevelLog | LevelWarn | LevelError.

Inductive ConsoleArg :=
| ArgString (s : jsstring)
| ArgThrown (e : Thrown).

Record LogEntry := { level : ConsoleLevel; args : list ConsoleArg }.

Record World := {
  hook : UseBrandingAssetsReturn;
  network : list Request;
  console : list LogEntry
}.

(** An asynchronous (or synchronous) function body: it runs in a world and
    completes normally or by throwing. *)
Definition M (A : Type) := World -> Completion A * World.

Definition ret {A} (a : A) : M A := fun w => (Return a, w).

Definition throw {A} (e : Thrown) : M A := fun w => (Throw e, w).

Definition bind {A B} (m : M A) (k : A -> M B) : M B :=
  fun w =>
    match m w with
    | (Return a, w') => k a w'
    | (Throw e, w') => (Throw e, w')
    end.

(** [await p] for a promise [p] that settles as [c], such as
    [response.json()]. *)
Definition await {A} (c : Completion A) : M A := fun w => (c, w).

(** A call of a function of another module that completes as [c]. *)
Definition call {A} (c : Completion A) : M A := fun w => (c, w).

(** [try { body } catch (error) { handler }] *)
Definition try_catch {A} (body : M A) (handler : Thrown -> M A) : M A :=
  fun w =>
    match body w with
    | (Return a, w') => (Return a, w')
    | (Throw e, w') => handler e w'
    end.

(** [try { body } finally { fin }]: [fin] runs on both completions and a
    throw of its own replaces the completion of [body]. *)
Definition try_finally {A} (body : M A) (fin : M unit) : M A :=
  fun w =>
    match body w with
    | (c, w') =>
        match fin w' with
        | (Return _, w'') => (c, w'')
        | (Throw e, w'') => (Throw e, w'')
        end
    end.

(** One member of [Promise.allSettled([...])]: the call runs to its end and
    its completion is kept as a value. *)
Definition settle {A} (m : M A) : M (Settled A) :=
  fun w =>
    match m w with
    | (Return a, w') => (Return (Fulfilled a), w')
    | (Throw e, w') => (Return (Rejected e), w')
    end.

Declare Scope js_scope.
Delimit Scope js_scope with js.
Notation "x <- c1 ;; c2" := (bind c1 (fun x => c2))
  (at level 61, c1 at next level, right associativity) : js_scope.
Notation "c1 ;; c2" := (bind c1 (fun _ => c2))
  (at level 61, right associativity) : js_scope.
Open Scope js_scope.

Definition withHook (f : UseBrandingAssetsReturn -> UseBrandingAssetsReturn) : M unit :=
  fun w => (Return tt, {| hook := f (hook w); network := network w; console := console w |}).

Definition setLogoUrl (v : jsstring) : M unit :=
  withHook (fun h => {| logoUrl := v; footerText := footerText h;
                        loading := loading h; error := error h |}).

Definition setFooterText (v : jsstring) : M unit :=
  withHook (fun h => {| logoUrl := logoUrl h; footerText := v;
                        loading := loading h; error := error h |}).

Definition setLoading (v : bool) : M unit :=
  withHook (fun h => {| logoUrl := logoUrl h; footerText := footerText h;
                        loading := v; error := error h |}).

Definition setError (v : option jsstring) : M unit :=
  withHook (fun h => {| logoUrl := logoUrl h; footerText := footerText h;
                        loading := loading h; error := v |}).

Definition consoleCall (l : ConsoleLevel) (a : list ConsoleArg) : M unit :=
  fun w => (Return tt, {| hook := hook w; network := network w;
                          console := console w ++ [{| level := l; args := a |}] |}).

Definition console_log := consoleCall LevelLog.
Definition console_warn := consoleCall LevelWarn.
Definition console_error := consoleCall LevelError.

(** [value?.field] on a value of type [BrandingAsset | null]. *)
Definition optChain {A} (value : option BrandingAsset.t)
    (field : BrandingAsset.t -> option A) : option A :=
  match value with Some a => field a | None => None end.

(** The footer fallback literal, ['© 2024 Eclipse Tractus-X. All rights
    reserved.']: U+00A9 and an ASCII tail. *)
Definition footerFallbackText : jsstring :=
  169%N :: lit " 2024 Eclipse Tractus-X. All rights reserved.".

(** The static logo of the service helper, ['/assets/logo/cx-logo.svg']. *)
Definition staticLogoUrl : jsstring := lit "/assets/logo/cx-logo.svg".

(** The places of the [try] block of [refreshAssets] between which an
    exception that comes from none of the two fetches can be raised. *)
Inductive Stage := BeforeFetch | AfterSettle | AfterLogo | AfterFooter.

(** ** The service and the hook *)

Section BrandingAssets.

(** What the modules that are imported provide:
    [getApiBase()] and [getAssetBase()] of [EnvironmentService],
    [UserService.getToken()] (a token, [undefined], or a throw), and the
    browser's [fetch], which rejects or resolves to a [Response]. *)
Variable getApiBase : jsstring.
Variable getAssetBase : jsstring.
Variable getToken : Completion (option jsstring).
Variable fetch : Request -> Completion Response.t.

(** An exception raised inside the [try] block of [refreshAssets] by
    something else than the two fetches, if any, and where.  With
    [fun _ => None] the block runs as it is written. *)
Variable unexpected : Stage -> option Thrown.

(** [await fetch(input, init)]: the request goes out, then the promise
    settles. *)
Definition callFetch (r : Request) : M Response.t :=
  fun w => (fetch r, {| hook := hook w; network := network w ++ [r];
                        console := console w |}).

(** *** [class BrandingAssetsService] *)

Definition baseUrl : jsstring :=
  getApiBase ++ lit "/api/administration/branding/assets".

Definition getAssetRequest (assetType : BrandingAssetType) : Request :=
  {| input := baseUrl ++ lit "/" ++ typeName assetType;
     method := GET;
     headers := [(lit "Content-Type", lit "application/json")];
     body := None |}.

Definition getAssetByType (assetType : BrandingAssetType)
  : M (option BrandingAsset.t) :=
  try_catch
    (response <- callFetch (getAssetRequest assetType) ;;
     if (Response.status response =? 404)%Z then ret None
     else if negb (Response.ok response) then
       throw (ErrorObject (lit "Failed to fetch " ++ typeName assetType
                           ++ lit " asset: " ++ Response.statusText response))
     else await (Response.json response))
    (fun error =>
       console_error [ArgString (lit "Error fetching " ++ typeName assetType
                                 ++ lit " asset:"); ArgThrown error] ;;
       throw error).

(** The [FormData] built by [uploadAsset] and [updateAsset]. *)
Definition formDataOf (request : UploadAssetRequest.t) : FormData :=
  [(lit "AssetType", FormText (typeName (UploadAssetRequest.assetType request)))]
  ++ match UploadAssetRequest.file request with
     | Some f => [(lit "File", FormFile f)]
     | None => []
     end
  ++ match UploadAssetRequest.text request with
     | Some s => if nonEmpty s then [(lit "Text", FormText s)] else []
     | None => []
     end.

(** [{ authorization: `Bearer ${UserService.getToken()}` }] *)
Definition authorizationHeaders : M (list (jsstring * jsstring)) :=
  token <- call getToken ;;
  ret [(lit "authorization", lit "Bearer " ++ toString token)].

Definition uploadAsset (request : UploadAssetRequest.t)
  : M (option BrandingAsset.t) :=
  try_catch
    (let formData := formDataOf request in
     h <- authorizationHeaders ;;
     response <- callFetch {| input := baseUrl; method := POST; headers := h;
                              body := Some formData |} ;;
     if negb (Response.ok response) then
       errorText <- await (Response.text response) ;;
       throw (ErrorObject (lit "Failed to upload asset: "
                           ++ Response.statusText response ++ lit " - "
                           ++ errorText))
     else await (Response.json response))
    (fun error =>
       console_error [ArgString (lit "Error uploading branding asset:");
                      ArgThrown error] ;;
       throw error).

Definition updateAsset (request : UpdateAssetRequest.t)
  : M (option BrandingAsset.t) :=
  try_catch
    (let formData := formDataOf request in
     h <- authorizationHeaders ;;
     response <- callFetch {| input := baseUrl; method := PUT; headers := h;
                              body := Some formData |} ;;
     if negb (Response.ok response) then
       errorText <- await (Response.text response) ;;
       throw (ErrorObject (lit "Failed to update asset: "
                           ++ Response.statusText response ++ lit " - "
                           ++ errorText))
     else await (Response.json response))
    (fun error =>
       console_error [ArgString (lit "Error updating branding asset:");
                      ArgThrown error] ;;
       throw error).

Definition deleteAsset (assetType : BrandingAssetType) : M unit :=
  try_catch
    (h <- authorizationHeaders ;;
     response <- callFetch {| input := baseUrl ++ lit "/" ++ typeName assetType;
                              method := DELETE; headers := h; body := None |} ;;
     if negb (Response.ok response) then
       errorText <- await (Response.text response) ;;
       throw (ErrorObject (lit "Failed to delete asset: "
                           ++ Response.statusText response ++ lit " - "
                           ++ errorText))
     else ret tt)
    (fun error =>
       console_error [ArgString (lit "Error deleting " ++ typeName assetType
                                 ++ lit " asset:"); ArgThrown error] ;;
       throw error).

(** [typeof v === 'string' && v.trim() !== '' ? v : fallback] *)
Definition orFallback (v : option jsstring) (fallback : jsstring) : jsstring :=
  match v with
  | Some s => if nonEmpty (trim s) then s else fallback
  | None => fallback
  end.

Definition getLogoUrl : M jsstring :=
  try_catch
    (logoAsset <- getAssetByType logo ;;
     let url := optChain logoAsset BrandingAsset.url in
     ret (orFallback url staticLogoUrl))
    (fun error =>
       console_warn [ArgString (lit "Failed to fetch logo asset, using fallback:");
                     ArgThrown error] ;;
       ret staticLogoUrl).

Definition getFooterText : M jsstring :=
  try_catch
    (footerAsset <- getAssetByType footer ;;
     let text := optChain footerAsset BrandingAsset.text in
     ret (orFallback text footerFallbackText))
    (fun error =>
       console_warn [ArgString (lit "Failed to fetch footer asset, using fallback:");
                     ArgThrown error] ;;
       ret footerFallbackText).

Definition hasManagementPermission : M bool :=
  try_catch
    (token <- call getToken ;;
     ret (truthy token))
    (fun error =>
       console_error [ArgString (lit "Error checking branding assets permission:");
                      ArgThrown error] ;;
       ret false).

(** *** [useBrandingAssets] *)

(** [`${getAssetBase()}/images/logos/cx-text.svg`] *)
Definition fallbackLogoUrl : jsstring :=
  getAssetBase ++ lit "/images/logos/cx-text.svg".

(** The [useState] initial values. *)
Definition useBrandingAssets : UseBrandingAssetsReturn :=
  {| logoUrl := fallbackLogoUrl;
     footerText := footerFallbackText;
     loading := true;
     error := None |}.

Definition interrupt (s : Stage) : M unit :=
  match unexpected s with
  | Some e => throw e
  | None => ret tt
  end.

(** [x.status === 'fulfilled' && x.value?.field], when truthy: the field. *)
Definition fulfilledField (x : Settled (option BrandingAsset.t))
    (field : BrandingAsset.t -> option jsstring) : option jsstring :=
  match x with
  | Fulfilled value =>
      match optChain value field with
      | Some s => if nonEmpty s then Some s else None
      | None => None
      end
  | Rejected _ => None
  end.

(** The two reads of [Promise.allSettled] are run one after the other,
    the logo first: the requests go out in that order, as in the code.
    The console entries of the reads come in that order too, where the
    code writes them as the reads settle; the cells do not depend on it. *)
Definition refreshAssets : M unit :=
  setLoading true ;;
  setError None ;;
  try_finally
    (try_catch
       (interrupt BeforeFetch ;;
        logoAsset <- settle (getAssetByType logo) ;;
        footerAsset <- settle (getAssetByType footer) ;;
        interrupt AfterSettle ;;
        match fulfilledField logoAsset BrandingAsset.url with
        | Some url => setLogoUrl url
        | None =>
            setLogoUrl fallbackLogoUrl ;;
            match logoAsset with
            | Rejected reason =>
                console_warn [ArgString (lit "Failed to load custom logo, using fallback:");
                              ArgThrown reason]
            | Fulfilled _ => ret tt
            end
        end ;;
        interrupt AfterLogo ;;
        match fulfilledField footerAsset BrandingAsset.text with
        | Some text =>
            console_log [ArgString (lit "Main hook - Footer text loaded:");
                         ArgString text] ;;
            setFooterText text
        | None =>
            console_log [ArgString (lit "Main hook - Using fallback footer text")] ;;
            setFooterText footerFallbackText ;;
            match footerAsset with
            | Rejected reason =>
                console_warn [ArgString (lit "Failed to load custom footer text, using fallback:");
                              ArgThrown reason]
            | Fulfilled _ => ret tt
            end
        end ;;
        interrupt AfterFooter)
       (fun err =>
          let errorMessage :=
            match err with
            | ErrorObject message => message
            | OtherValue _ => lit "Failed to load branding assets"
            end in
          setError (Some errorMessage) ;;
          console_error [ArgString (lit "Error loading branding assets:");
                         ArgThrown err] ;;
          setLogoUrl fallbackLogoUrl ;;
          setFooterText footerFallbackText))
    (setLoading false).

End BrandingAssets.

(** ** Per asset type *)

(** The authoritative field: [url] for the logo, [text] for the footer. *)
Definition selectedField (t : BrandingAssetType) (a : BrandingAsset.t)
  : option jsstring :=
  match t with
  | logo => BrandingAsset.url a
  | footer => BrandingAsset.text a
  end.

(** The value the hook exposes for a type. *)
Definition displayValue (t : BrandingAssetType) (h : UseBrandingAssetsReturn)
  : jsstring :=
  match t with logo => logoUrl h | footer => footerText h end.

(** The fallback of the hook for a type. *)
Definition hookFallback (getAssetBase : jsstring) (t : BrandingAssetType)
  : jsstring :=
  match t with
  | logo => fallbackLogoUrl getAssetBase
  | footer => footerFallbackText
  end.

(** The single-asset helper of the service for a type, and its fallback. *)
Definition helper (getApiBase : jsstring)
    (fetch : Request -> Completion Response.t) (t : BrandingAssetType)
  : M jsstring :=
  match t with
  | logo => getLogoUrl getApiBase fetch
  | footer => getFooterText getApiBase fetch
  end.

Definition helperFallback (t : BrandingAssetType) : jsstring :=
  match t with logo => staticLogoUrl | footer => footerFallbackText end.

(** A field that is missing, empty or made of white space only. *)
Definition unusable (v : option jsstring) : bool :=
  match v with Some s => blank s | None => true end.

(** No exception besides those of the fetches. *)
Definition noFault : Stage -> option Thrown := fun _ => None.

(** The requests of the write operations, for a given token. *)
Definition writeRequest (getApiBase : jsstring) (m : Method)
    (token : option jsstring) (request : UploadAssetRequest.t) : Request :=
  {| input := baseUrl getApiBase; method := m;
     headers := [(lit "authorization", lit "Bearer " ++ toString token)];
     body := Some (formDataOf request) |}.

Definition deleteRequest (getApiBase : jsstring) (token : option jsstring)
    (assetType : BrandingAssetType) : Request :=
  {| input := baseUrl getApiBase ++ lit "/" ++ typeName assetType;
     method := DELETE;
     headers := [(lit "authorization", lit "Bearer " ++ toString token)];
     body := None |}.

(** The shape [uploadAsset] and [updateAsset] share: they differ in the
    method and in the word of their two messages. *)
Definition writeAsset (getApiBase : jsstring)
    (getToken : Completion (option jsstring))
    (fetch : Request -> Completion Response.t)
    (m : Method) (verb gerund : jsstring)
    (request : UploadAssetRequest.t) : M (option BrandingAsset.t) :=
  try_catch
    (h <- authorizationHeaders getToken ;;
     response <- callFetch fetch {| input := baseUrl getApiBase; method := m;
                                    headers := h;
                                    body := Some (formDataOf request) |} ;;
     if negb (Response.ok response) then
       errorText <- await (Response.text response) ;;
       throw (ErrorObject (lit "Failed to " ++ verb ++ lit " asset: "
                           ++ Response.statusText response ++ lit " - "
                           ++ errorText))
     else await (Response.json response))
    (fun error =>
       console_error [ArgString (lit "Error " ++ gerund ++ lit " branding asset:");
                      ArgThrown error] ;;
       throw error).

(** A world in which one more request has been sent. *)
Definition sent (r : Request) (w : World) : World :=
  {| hook := hook w; network := network w ++ [r]; console := console w |}.

(** What [refreshAssets] shows for a type, from the completion of the read
    of that type, when nothing else throws. *)
Definition batchValue (getAssetBase : jsstring) (t : BrandingAssetType)
    (c : Completion (option BrandingAsset.t)) : jsstring :=
  match c with
  | Return (Some a) =>
      match selectedField t a with
      | Some s => if nonEmpty s then s else hookFallback getAssetBase t
      | None => hookFallback getAssetBase t
      end
  | Return None => hookFallback getAssetBase t
  | Throw _ => hookFallback getAssetBase t
  end.

(** The [errorMessage] of the [catch] block of [refreshAssets]. *)
Definition errorMessageOf (err : Thrown) : jsstring :=
  match err with
  | ErrorObject message => message
  | OtherValue _ => lit "Failed to load branding assets"
  end.

(** The first exception of [unexpected], in the order of the stages. *)
Definition firstFault (unexpected : Stage -> option Thrown) : option Thrown :=
  match unexpected BeforeFetch with
  | Some e => Some e
  | None =>
      match unexpected AfterSettle with
      | Some e => Some e
      | None =>
          match unexpected AfterLogo with
          | Some e => Some e
          | None => unexpected AfterFooter
          end
      end
  end.

(** The console entry by which [refreshAssets] reports a rejected read. *)
Definition rejectionWarning (t : BrandingAssetType) (reason : Thrown) : LogEntry :=
  {| level := LevelWarn;
     args := [ArgString
                match t with
                | logo => lit "Failed to load custom logo, using fallback:"
                | footer => lit "Failed to load custom footer text, using fallback:"
                end;
              ArgThrown reason] |}.

(** ** Concrete backends and inputs *)

Module Sample.

Definition apiBase : jsstring := lit "https://portal.example".
Definition assetBase : jsstring := lit "https://assets.example".

Definition jsstring_eqb (s t : jsstring) : bool :=
  if list_eq_dec N.eq_dec s t then true else false.

Definition customLogo : jsstring := lit "https://cdn.example/acme.svg".
Definition customFooter : jsstring := lit "Copyright 2025 ACME".

Definition logoAssetWith (u : option jsstring) : BrandingAsset.t :=
  BrandingAsset.mk logo (Some (lit "image/svg+xml")) (Some (lit "acme.svg"))
    None u.

Definition footerAssetWith (s : option jsstring) : BrandingAsset.t :=
  BrandingAsset.mk footer None None s None.

Definition okResponse (a : option BrandingAsset.t) : Response.t :=
  Response.mk 200 (lit "OK") (Return (lit "{}")) (Return a).

(** A response with a status that is not 2xx: no JSON body is read. *)
Definition failResponse (status : Z) (statusText errorText : jsstring)
  : Response.t :=
  Response.mk status statusText (Return errorText)
    (Throw (ErrorObject (lit "Unexpected token"))).

Definition notFound : Response.t :=
  failResponse 404 (lit "Not Found") (lit "").

(** A backend that answers the read of each type with a given completion
    and everything else with [other]. *)
Definition backend (onLogo onFooter other : Completion Response.t)
  : Request -> Completion Response.t :=
  fun r =>
    match method r with
    | GET =>
        if jsstring_eqb (input r) (input (getAssetRequest apiBase logo))
        then onLogo
        else if jsstring_eqb (input r) (input (getAssetRequest apiBase footer))
        then onFooter
        else other
    | _ => other
    end.

Definition networkDown : Completion Response.t :=
  Throw (ErrorObject (lit "Failed to fetch")).

(** The logo read fails, the footer is configured. *)
Definition logoDownFooterUp : Request -> Completion Response.t :=
  backend networkDown
    (Return (okResponse (Some (footerAssetWith (Some customFooter)))))
    networkDown.

(** Both assets are configured. *)
Definition bothUp : Request -> Completion Response.t :=
  backend (Return (okResponse (Some (logoAssetWith (Some customLogo)))))
    (Return (okResponse (Some (footerAssetWith (Some customFooter)))))
    networkDown.

(** The logo exists at the backend with a [url] of one space. *)
Definition blankLogo : Request -> Completion Response.t :=
  backend (Return (okResponse (Some (logoAssetWith (Some (lit " "))))))
    (Return notFound) networkDown.

(** Every request gets the same answer. *)
Definition always (c : Completion Response.t)
  : Request -> Completion Response.t := fun _ => c.

(** The world right after the hook is mounted. *)
Definition world0 : World :=
  {| hook := useBrandingAssets assetBase; network := []; console := [] |}.

Definition footerRequest : UploadAssetRequest.t :=
  UploadAssetRequest.mk footer None (Some customFooter).

Definition faultAfterLogo : Stage -> option Thrown :=
  fun s => match s with
           | AfterLogo => Some (ErrorObject (lit "setState on unmounted tree"))
           | _ => None
           end.

End Sample.

(** * More of the service, the hooks and the components *)

(** ** More of ECMAScript strings *)

(** [s.startsWith(p)] *)
Fixpoint startsWith (s p : jsstring) : bool :=
  match p with
  | [] => true
  | c :: p' =>
      match s with
      | [] => false
      | d :: s' => (d =? c)%N && startsWith s' p'
      end
  end.

(** [s.includes(p)] *)
Fixpoint includes (s p : jsstring) : bool :=
  startsWith s p
  || match s with
     | [] => false
     | _ :: s' => includes s' p
     end.

(** ** The list of all assets *)

(** [interface BrandingAssetsResponse] *)
Module BrandingAssetsResponse.
Record t := mk { assets : list BrandingAsset.t }.
End BrandingAssetsResponse.

(** ** Computations over state cells of their own *)

(** A hook or a component owns [useState] cells [S] besides the world. *)
Module Cell.

Definition Prog (S A : Type) := S -> World -> Completion A * S * World.

Definition ret {S A} (a : A) : Prog S A := fun s w => (Return a, s, w).

Definition bind {S A B} (m : Prog S A) (k : A -> Prog S B) : Prog S B :=
  fun s w =>
    match m s w with
    | (Return a, s', w') => k a s' w'
    | (Throw e, s', w') => (Throw e, s', w')
    end.

(** A call of a function that does not see the cells. *)
Definition lift {S A} (m : M A) : Prog S A :=
  fun s w => match m w with (c, w') => (c, s, w') end.

(** A state setter. *)
Definition set {S} (f : S -> S) : Prog S unit := fun s w => (Return tt, f s, w).

(** The cells as the running callback sees them. *)
Definition get {S} : Prog S S := fun s w => (Return s, s, w).

Definition try_catch {S A} (body : Prog S A) (handler : Thrown -> Prog S A)
  : Prog S A :=
  fun s w =>
    match body s w with
    | (Return a, s', w') => (Return a, s', w')
    | (Throw e, s', w') => handler e s' w'
    end.

Definition try_finally {S A} (body : Prog S A) (fin : Prog S unit) : Prog S A :=
  fun s w =>
    match body s w with
    | (c, s', w') =>
        match fin s' w' with
        | (Return _, s'', w'') => (c, s'', w'')
        | (Throw e, s'', w'') => (Throw e, s'', w'')
        end
    end.

End Cell.

Declare Scope cell_scope.
Delimit Scope cell_scope with cell.
Notation "x <- c1 ;; c2" := (Cell.bind c1 (fun x => c2))
  (at level 61, c1 at next level, right associativity) : cell_scope.
Notation "c1 ;; c2" := (Cell.bind c1 (fun _ => c2))
  (at level 61, right associativity) : cell_scope.

(** The cells of [useSpecificAsset]. *)
Module UseSpecificAsset.
Record t := mk {
  asset : option BrandingAsset.t;
  loading : bool;
  error : option jsstring
}.
Definition initial : t := mk None true None.
Definition setAsset (v : option BrandingAsset.t) : Cell.Prog t unit :=
  Cell.set (fun h => mk v (loading h) (error h)).
Definition setLoading (v : bool) : Cell.Prog t unit :=
  Cell.set (fun h => mk (asset h) v (error h)).
Definition setError (v : option jsstring) : Cell.Prog t unit :=
  Cell.set (fun h => mk (asset h) (loading h) v).
End UseSpecificAsset.

(** The cells of [useLogo]. *)
Module UseLogo.
Record t := mk { logoUrl : jsstring; loading : bool }.
Definition setLogoUrl (v : jsstring) : Cell.Prog t unit :=
  Cell.set (fun h => mk v (loading h)).
Definition setLoading (v : bool) : Cell.Prog t unit :=
  Cell.set (fun h => mk (logoUrl h) v).
End UseLogo.

(** The cells of [useFooter]. *)
Module UseFooter.
Record t := mk { footerText : jsstring; loading : bool }.
Definition setFooterText (v : jsstring) : Cell.Prog t unit :=
  Cell.set (fun h => mk v (loading h)).
Definition setLoading (v : bool) : Cell.Prog t unit :=
  Cell.set (fun h => mk (footerText h) v).
End UseFooter.

(** The cells of [BrandingAssetsManagement]. *)
Module Page.
Record t := mk {
  isUploading : bool;
  isUpdating : bool;
  isDeleting : option BrandingAssetType;
  editingFooter : bool;
  footerTextEdit : jsstring;
  message : jsstring
}.
(** The [useState] initial values. *)
Definition initial : t := mk false false None false [] [].
Definition setIsUploading (v : bool) : Cell.Prog t unit :=
  Cell.set (fun p => mk v (isUpdating p) (isDeleting p) (editingFooter p)
                       (footerTextEdit p) (message p)).
Definition setIsUpdating (v : bool) : Cell.Prog t unit :=
  Cell.set (fun p => mk (isUploading p) v (isDeleting p) (editingFooter p)
                       (footerTextEdit p) (message p)).
Definition setIsDeleting (v : option BrandingAssetType) : Cell.Prog t unit :=
  Cell.set (fun p => mk (isUploading p) (isUpdating p) v (editingFooter p)
                       (footerTextEdit p) (message p)).
Definition setEditingFooter (v : bool) : Cell.Prog t unit :=
  Cell.set (fun p => mk (isUploading p) (isUpdating p) (isDeleting p) v
                       (footerTextEdit p) (message p)).
Definition setFooterTextEdit (v : jsstring) : Cell.Prog t unit :=
  Cell.set (fun p => mk (isUploading p) (isUpdating p) (isDeleting p)
                       (editingFooter p) v (message p)).
Definition setMessage (v : jsstring) : Cell.Prog t unit :=
  Cell.set (fun p => mk (isUploading p) (isUpdating p) (isDeleting p)
                       (editingFooter p) (footerTextEdit p) v).
(** [message.includes('Failed')]: the banner is drawn as an error. *)
Definition drawnAsError (p : t) : bool := includes (message p) (lit "Failed").
End Page.

Section HooksAndComponents.

Variable getApiBase : jsstring.
Variable getAssetBase : jsstring.
Variable getToken : Completion (option jsstring).
Variable fetch : Request -> Completion Response.t.
Variable unexpected : Stage -> option Thrown.

(** [response.json()] where the caller types the body as a
    [BrandingAssetsResponse]. *)
Variable jsonAssets : Response.t -> Completion BrandingAssetsResponse.t.

Definition getAllAssetsRequest : Request :=
  {| input := baseUrl getApiBase;
     method := GET;
     headers := [(lit "Content-Type", lit "application/json")];
     body := None |}.

Definition getAllAssets : M BrandingAssetsResponse.t :=
  try_catch
    (response <- callFetch fetch getAllAssetsRequest ;;
     if negb (Response.ok response) then
       throw (ErrorObject (lit "Failed to fetch branding assets: "
                           ++ Response.statusText response))
     else await (jsonAssets response))
    (fun error =>
       console_error [ArgString (lit "Error fetching branding assets:");
                      ArgThrown error] ;;
       throw error).

Local Open Scope cell_scope.

(** *** [useSpecificAsset]: the [refresh] callback *)

Definition refresh (assetType : BrandingAssetType)
  : Cell.Prog UseSpecificAsset.t unit :=
  UseSpecificAsset.setLoading true ;;
  UseSpecificAsset.setError None ;;
  Cell.try_finally
    (Cell.try_catch
       (fetchedAsset <- Cell.lift (getAssetByType getApiBase fetch assetType) ;;
        UseSpecificAsset.setAsset fetchedAsset)
       (fun err =>
          let errorMessage :=
            match err with
            | ErrorObject message => message
            | OtherValue _ => lit "Failed to load " ++ typeName assetType
                              ++ lit " asset"
            end in
          UseSpecificAsset.setError (Some errorMessage) ;;
          Cell.lift (console_error
                       [ArgString (lit "Error loading " ++ typeName assetType
                                   ++ lit " asset:"); ArgThrown err])))
    (UseSpecificAsset.setLoading false).

(** *** [useLogo]: the cells at mount and the [loadLogo] effect *)

Definition useLogo : UseLogo.t :=
  UseLogo.mk (fallbackLogoUrl getAssetBase) false.

Definition loadLogo : Cell.Prog UseLogo.t unit :=
  UseLogo.setLoading true ;;
  Cell.try_finally
    (Cell.try_catch
       (url <- Cell.lift (getLogoUrl getApiBase fetch) ;;
        UseLogo.setLogoUrl url)
       (fun error =>
          Cell.lift (console_warn
                       [ArgString (lit "Failed to load logo, using fallback")]) ;;
          UseLogo.setLogoUrl (fallbackLogoUrl getAssetBase)))
    (UseLogo.setLoading false).

(** *** [useFooter]: the cells at mount and the [loadFooter] effect *)

Definition useFooter : UseFooter.t := UseFooter.mk footerFallbackText false.

Definition loadFooter : Cell.Prog UseFooter.t unit :=
  UseFooter.setLoading true ;;
  Cell.try_finally
    (Cell.try_catch
       (text <- Cell.lift (getFooterText getApiBase fetch) ;;
        Cell.lift (console_log [ArgString (lit "Footer text loaded from API:");
                                ArgString text]) ;;
        if nonEmpty text then UseFooter.setFooterText text
        else
          Cell.lift (console_warn
                       [ArgString (lit "API returned empty footer text, using fallback")]) ;;
          UseFooter.setFooterText footerFallbackText)
       (fun error =>
          Cell.lift (console_warn
                       [ArgString (lit "Failed to load footer text, using fallback:");
                        ArgThrown error]) ;;
          UseFooter.setFooterText footerFallbackText))
    (UseFooter.setLoading false).

(** *** [DynamicLogo] and [DynamicLogoImg] *)

(** [defaultFallback], from the [fallbackSrc] prop. *)
Definition defaultFallback (fallbackSrc : option jsstring) : jsstring :=
  orFallback fallbackSrc (fallbackLogoUrl getAssetBase).

(** The [src] of the image, from the [logoUrl] of [useLogo]. *)
Definition imageSrc (logoUrl : jsstring) (fallbackSrc : option jsstring)
  : jsstring :=
  orFallback (Some logoUrl) (defaultFallback fallbackSrc).

(** *** [BrandingAssetsManagement]: the handlers *)

Definition handleLogoUpload (file : File) : Cell.Prog Page.t unit :=
  Page.setIsUploading true ;;
  Cell.try_finally
    (Cell.try_catch
       (Cell.lift (uploadAsset getApiBase getToken fetch
                     (UploadAssetRequest.mk logo (Some file) None)) ;;
        Cell.lift (refreshAssets getApiBase getAssetBase fetch unexpected) ;;
        Page.setMessage (lit "Logo uploaded successfully!"))
       (fun error =>
          Cell.lift (console_error [ArgString (lit "Error uploading logo:");
                                    ArgThrown error]) ;;
          Page.setMessage (lit "Failed to upload logo. Please try again.")))
    (Page.setIsUploading false).

Definition handleFooterUpdate : Cell.Prog Page.t unit :=
  p <- Cell.get ;;
  Page.setIsUpdating true ;;
  Cell.try_finally
    (Cell.try_catch
       (Cell.lift (updateAsset getApiBase getToken fetch
                     (UpdateAssetRequest.mk footer None
                        (Some (Page.footerTextEdit p)))) ;;
        Cell.lift (refreshAssets getApiBase getAssetBase fetch unexpected) ;;
        Page.setEditingFooter false ;;
        Page.setMessage (lit "Footer text updated successfully!"))
       (fun error =>
          Cell.lift (console_error [ArgString (lit "Error updating footer text:");
                                    ArgThrown error]) ;;
          Page.setMessage (lit "Failed to update footer text. Please try again.")))
    (Page.setIsUpdating false).

Definition handleDeleteAsset (assetType : BrandingAssetType)
  : Cell.Prog Page.t unit :=
  Page.setIsDeleting (Some assetType) ;;
  Cell.try_finally
    (Cell.try_catch
       (Cell.lift (deleteAsset getApiBase getToken fetch assetType) ;;
        Cell.lift (refreshAssets getApiBase getAssetBase fetch unexpected) ;;
        Page.setMessage (typeName assetType ++ lit " deleted successfully!"))
       (fun error =>
          Cell.lift (console_error [ArgString (lit "Error deleting "
                                               ++ typeName assetType ++ lit ":");
                                    ArgThrown error]) ;;
          Page.setMessage (lit "Failed to delete " ++ typeName assetType
                           ++ lit ". Please try again.")))
    (Page.setIsDeleting None).

(** [event.target.files?.[0]] is the file chosen, if any.  The upload that
    the handler starts is run to its end. *)
Definition handleLogoFileSelect (file : option File) : Cell.Prog Page.t unit :=
  match file with
  | Some file =>
      if negb (startsWith (file_type file) (lit "image/")) then
        Page.setMessage (lit "Please select a valid image file.")
      else if (2 * 1024 * 1024 <? file_size file)%N then
        Page.setMessage (lit "File size must be less than 2MB.")
      else handleLogoUpload file
  | None => Cell.ret tt
  end.

End HooksAndComponents.

(** ** Worlds and console entries the statements speak of *)

(** A world in which one more entry has been written to the console. *)
Definition logged (l : LogEntry) (w : World) : World :=
  {| hook := hook w; network := network w; console := console w ++ [l] |}.

(** A [console.error] call with a label and the value caught. *)
Definition errorEntry (label : jsstring) (e : Thrown) : LogEntry :=
  {| level := LevelError; args := [ArgString label; ArgThrown e] |}.

(** The [errorMessage] of the [catch] block of [refresh]. *)
Definition refreshErrorMessage (assetType : BrandingAssetType) (err : Thrown)
  : jsstring :=
  match err with
  | ErrorObject message => message
  | OtherValue _ => lit "Failed to load " ++ typeName assetType ++ lit " asset"
  end.

(** The cells of the page with another message. *)
Definition withMessage (m : jsstring) (p : Page.t) : Page.t :=
  Page.mk (Page.isUploading p) (Page.isUpdating p) (Page.isDeleting p)
    (Page.editingFooter p) (Page.footerTextEdit p) m.

(** The requests of a resolution round, in the order they are sent. *)
Definition roundRequests (getApiBase : jsstring) : list Request :=
  [getAssetRequest getApiBase logo; getAssetRequest getApiBase footer].

(** ** Concrete files and pages *)

Module MoreSample.

(** An image of exactly 2 MiB. *)
Definition logoFile : File :=
  {| file_name := lit "acme.png"; file_type := lit "image/png";
     file_size := 2097152 |}.

(** One byte more. *)
Definition bigFile : File :=
  {| file_name := lit "huge.png"; file_type := lit "image/png";
     file_size := 2097153 |}.

Definition textFile : File :=
  {| file_name := lit "notes.txt"; file_type := lit "text/plain";
     file_size := 12 |}.

(** The footer editor open, with white space typed. *)
Definition editing : Page.t :=
  Page.mk false false None true (lit "  ") [].

Definition serverError : Response.t :=
  Sample.failResponse 500 (lit "Internal Server Error") (lit "boom").

Definition noAssets (r : Response.t) : Completion BrandingAssetsResponse.t :=
  Return (BrandingAssetsResponse.mk []).

(** A 204: the status is in 200-299 and there is no body to parse. *)
Definition noContent : Response.t :=
  Response.mk 204 (lit "No Content") (Return [])
    (Throw (ErrorObject (lit "Unexpected end of JSON input"))).

End MoreSample.

(** ** What the transport and the response dictate for a write *)

(** The completion of [uploadAsset] ("upload") and [updateAsset]
    ("update") from the completion of their [fetch]: the rejection of
    [fetch]; for a status outside 200-299 the [Error] built from the status
    text and the body text, or the rejection of [text()]; for a status in
    200-299 whatever [json()] completes with. *)
Definition writeCompletion (verb : jsstring) (c : Completion Response.t)
  : Completion (option BrandingAsset.t) :=
  match c with
  | Throw e => Throw e
  | Return response =>
      if Response.ok response then Response.json response
      else
        match Response.text response with
        | Return errorText =>
            Throw (ErrorObject (lit "Failed to " ++ verb ++ lit " asset: "
                                ++ Response.statusText response ++ lit " - "
                                ++ errorText))
        | Throw e => Throw e
        end
  end.

(** The same for [deleteAsset], which reads no body from a response whose
    status is in 200-299. *)
Definition deleteCompletion (c : Completion Response.t) : Completion unit :=
  match c with
  | Throw e => Throw e
  | Return response =>
      if Response.ok response then Return tt
      else
        match Response.text response with
        | Return errorText =>
            Throw (ErrorObject (lit "Failed to delete asset: "
                                ++ Response.statusText response ++ lit " - "
                                ++ errorText))
        | Throw e => Throw e
        end
  end.

(** * Properties *)

(** ** Strings *)

Lemma trimStart_blank (s : jsstring) : blank s = true -> trimStart s = [].
Proof.
  induction s as [|c s IH]; simpl; [reflexivity|].
  intros H. apply andb_prop in H. destruct H as [Hc Hs].
  rewrite Hc. now apply IH.
Qed.

Lemma trimStart_nil_blank (s : jsstring) : trimStart s = [] -> blank s = true.
Proof.
  induction s as [|c s IH]; simpl; [reflexivity|].
  destruct (isWhiteSpace c); [intros H; now rewrite IH | discriminate].
Qed.

Lemma trimStart_head (s : jsstring) c r :
  trimStart s = c :: r -> isWhiteSpace c = false.
Proof.
  induction s as [|d s IH]; simpl; [discriminate|].
  destruct (isWhiteSpace d) eqn:E; [exact IH|].
  intros H. injection H as -> _. exact E.
Qed.

Lemma blank_rev (s : jsstring) : blank (rev s) = blank s.
Proof.
  unfold blank. induction s as [|c s IH]; simpl; [reflexivity|].
  rewrite forallb_app, IH. simpl. rewrite andb_true_r. apply andb_comm.
Qed.

(** [s.trim() !== ''] fails exactly on the blank strings. *)
Lemma trim_nonEmpty_blank (s : jsstring) : nonEmpty (trim s) = negb (blank s).
Proof.
  unfold trim, trimEnd.
  destruct (blank s) eqn:B; simpl.
  - now rewrite (trimStart_blank s B).
  - destruct (trimStart s) as [|c r] eqn:T.
    + apply trimStart_nil_blank in T. congruence.
    + pose proof (trimStart_head s T) as Hc.
      destruct (trimStart (rev (c :: r))) as [|d q] eqn:R.
      * apply trimStart_nil_blank in R. rewrite blank_rev in R.
        simpl in R. rewrite Hc in R. discriminate.
      * destruct (rev (d :: q)) eqn:V; [|reflexivity].
        apply (f_equal (@rev _)) in V. rewrite rev_involutive in V.
        discriminate.
Qed.

Lemma blank_false_nonEmpty (s : jsstring) : blank s = false -> nonEmpty s = true.
Proof. destruct s; [discriminate | reflexivity]. Qed.

Lemma nonEmpty_true_iff (s : jsstring) : nonEmpty s = true <-> s <> [].
Proof. destruct s; simpl; split; congruence. Qed.

Lemma orFallback_usable (v : option jsstring) (fb : jsstring) :
  orFallback v fb = match v with
                    | Some s => if blank s then fb else s
                    | None => fb
                    end.
Proof.
  destruct v as [s|]; simpl; [|reflexivity].
  rewrite trim_nonEmpty_blank. now destruct (blank s).
Qed.

Lemma orFallback_nonEmpty (v : option jsstring) (fb : jsstring) :
  fb <> [] -> orFallback v fb <> [].
Proof.
  intros Hfb. rewrite orFallback_usable.
  destruct v as [s|]; [|exact Hfb].
  destruct (blank s) eqn:B; [exact Hfb|].
  apply nonEmpty_true_iff. now apply blank_false_nonEmpty.
Qed.

Lemma fallbackLogoUrl_nonEmpty (base : jsstring) : fallbackLogoUrl base <> [].
Proof.
  unfold fallbackLogoUrl. intros H. apply app_eq_nil in H.
  destruct H as [_ H]. discriminate H.
Qed.

Lemma hookFallback_nonEmpty (base : jsstring) (t : BrandingAssetType) :
  hookFallback base t <> [].
Proof.
  destruct t; simpl; [apply fallbackLogoUrl_nonEmpty | discriminate].
Qed.

Lemma helperFallback_nonEmpty (t : BrandingAssetType) : helperFallback t <> [].
Proof. destruct t; discriminate. Qed.

Lemma batchValue_nonEmpty (base : jsstring) (t : BrandingAssetType) c :
  batchValue base t c <> [].
Proof.
  pose proof (hookFallback_nonEmpty base t) as F.
  unfold batchValue. destruct c as [[a|]|e]; try exact F.
  destruct (selectedField t a) as [s|]; [|exact F].
  destruct (nonEmpty s) eqn:N; [now apply nonEmpty_true_iff | exact F].
Qed.

(** ** The read of one asset *)

Ltac unfold_js :=
  unfold bind, ret, throw, await, call, try_catch, try_finally, settle,
    callFetch, console_error, console_warn, console_log, consoleCall,
    setLogoUrl, setFooterText, setLoading, setError, withHook in *.

Arguments lit : simpl never.

Section Properties.

Variable getApiBase : jsstring.
Variable getAssetBase : jsstring.
Variable getToken : Completion (option jsstring).
Variable fetch : Request -> Completion Response.t.

(** The completion of a read depends on the backend only. *)
Lemma getAssetByType_fst (t : BrandingAssetType) (w w' : World) :
  fst (getAssetByType getApiBase fetch t w)
  = fst (getAssetByType getApiBase fetch t w').
Proof.
  unfold getAssetByType. unfold_js.
  destruct (fetch (getAssetRequest getApiBase t)) as [r|e]; [|reflexivity].
  destruct (Response.status r =? 404)%Z; [reflexivity|].
  destruct (Response.ok r); simpl; [|reflexivity].
  destruct (Response.json r); reflexivity.
Qed.

(** A read leaves the hook state alone. *)
Lemma getAssetByType_hook (t : BrandingAssetType) (w : World) :
  hook (snd (getAssetByType getApiBase fetch t w)) = hook w.
Proof.
  unfold getAssetByType. unfold_js.
  destruct (fetch (getAssetRequest getApiBase t)) as [r|e]; [|reflexivity].
  destruct (Response.status r =? 404)%Z; [reflexivity|].
  destruct (Response.ok r); simpl; [|reflexivity].
  destruct (Response.json r); reflexivity.
Qed.

(** ** A resolution round *)

Ltac read_of t c w' F H :=
  match goal with
  | |- context [getAssetByType getApiBase fetch t ?w0] =>
      pose proof (fun w => getAssetByType_fst t w0 w) as F;
      pose proof (getAssetByType_hook t w0) as H;
      destruct (getAssetByType getApiBase fetch t w0) as [c w']
  end.

(** A round never rejects, and its settled state is a function of the
    completions of the two reads and of the first exception that comes
    from elsewhere. *)
Lemma refreshAssets_settled (unexpected : Stage -> option Thrown)
    (w : World) :
  fst (refreshAssets getApiBase getAssetBase fetch unexpected w) = Return tt
  /\ hook (snd (refreshAssets getApiBase getAssetBase fetch unexpected w))
     = match firstFault unexpected with
       | None =>
           {| logoUrl := batchValue getAssetBase logo
                           (fst (getAssetByType getApiBase fetch logo w));
              footerText := batchValue getAssetBase footer
                              (fst (getAssetByType getApiBase fetch footer w));
              loading := false;
              error := None |}
       | Some e =>
           {| logoUrl := fallbackLogoUrl getAssetBase;
              footerText := footerFallbackText;
              loading := false;
              error := Some (errorMessageOf e) |}
       end.
Proof.
  unfold refreshAssets, firstFault, interrupt. unfold_js. cbn.
  destruct (unexpected BeforeFetch) as [e0|]; [split; reflexivity|].
  cbn.
  read_of logo c1 w1 F1 H1. simpl in F1, H1. rewrite <- (F1 w). clear F1.
  destruct c1 as [v1|e1]; cbn;
    read_of footer c2 w2 F2 H2; simpl in F2, H2;
    rewrite <- (F2 w); clear F2;
    (destruct c2 as [v2|e2]; cbn;
     (destruct (unexpected AfterSettle) as [e|]; cbn;
      [split; [reflexivity | now rewrite ?H2, ?H1]|])).
  all: unfold batchValue, fulfilledField, optChain, selectedField, hookFallback.
  all: try (destruct v1 as [a1|]); try (destruct v2 as [a2|]).
  all: try (destruct (BrandingAsset.url a1) as [u|]; [destruct (nonEmpty u)|]).
  all: cbn.
  all: (destruct (unexpected AfterLogo) as [e|]; cbn;
        [split; [reflexivity | now rewrite ?H2, ?H1]|]).
  all: try (destruct (BrandingAsset.text a2) as [x|]; [destruct (nonEmpty x)|]).
  all: cbn.
  all: (destruct (unexpected AfterFooter) as [e|]; cbn;
        (split; [reflexivity | now rewrite ?H2, ?H1])).
Qed.

Lemma firstFault_None (unexpected : Stage -> option Thrown) :
  firstFault unexpected = None <-> forall s, unexpected s = None.
Proof.
  unfold firstFault. split.
  - intros H s.
    destruct (unexpected BeforeFetch) eqn:E0; [discriminate|].
    destruct (unexpected AfterSettle) eqn:E1; [discriminate|].
    destruct (unexpected AfterLogo) eqn:E2; [discriminate|].
    destruct s; assumption.
  - intros H. now rewrite !H.
Qed.

(** Without an exception from elsewhere, the rejection of a read is
    reported on the console by the round. *)
Lemma refreshAssets_warns (t : BrandingAssetType) (e : Thrown) (w : World) :
  fst (getAssetByType getApiBase fetch t w) = Throw e ->
  In (rejectionWarning t e)
     (console (snd (refreshAssets getApiBase getAssetBase fetch noFault w))).
Proof.
  intros R.
  unfold refreshAssets, interrupt, noFault. unfold_js. cbn.
  read_of logo c1 w1 F1 H1. simpl in F1. clear H1.
  destruct c1 as [v1|e1]; cbn;
    read_of footer c2 w2 F2 H2; simpl in F2; clear H2;
    (destruct c2 as [v2|e2]; cbn).
  all: destruct t; [rewrite <- (F1 w) in R | rewrite <- (F2 w) in R];
    try discriminate R; injection R as ->.
  all: unfold fulfilledField, optChain, rejectionWarning.
  all: try (destruct v1 as [a1|]); try (destruct v2 as [a2|]).
  all: try (destruct (BrandingAsset.url a1) as [u|]; [destruct (nonEmpty u)|]).
  all: try (destruct (BrandingAsset.text a2) as [x|]; [destruct (nonEmpty x)|]).
  all: cbn; rewrite ?in_app_iff; simpl; tauto.
Qed.

(** ** The helpers of the service *)

(** A helper completes with the [orFallback] of the selected field, or
    with the fallback when the read throws. *)
Lemma helper_fst (t : BrandingAssetType) (w : World) :
  fst (helper getApiBase fetch t w)
  = Return match fst (getAssetByType getApiBase fetch t w) with
           | Return (Some a) => orFallback (selectedField t a) (helperFallback t)
           | Return None => helperFallback t
           | Throw _ => helperFallback t
           end.
Proof.
  destruct t; unfold helper, getLogoUrl, getFooterText; unfold_js;
    destruct (getAssetByType getApiBase fetch _ w) as [[[a|]|e] w'];
    reflexivity.
Qed.

(** ** The write path *)

Lemma uploadAsset_writeAsset (token : Completion (option jsstring))
    (request : UploadAssetRequest.t) :
  uploadAsset getApiBase token fetch request
  = writeAsset getApiBase token fetch POST (lit "upload") (lit "uploading") request.
Proof. reflexivity. Qed.

Lemma updateAsset_writeAsset (token : Completion (option jsstring))
    (request : UpdateAssetRequest.t) :
  updateAsset getApiBase token fetch request
  = writeAsset getApiBase token fetch PUT (lit "update") (lit "updating") request.
Proof. reflexivity. Qed.

(** Every write sends its request, whatever the token is. *)
Lemma writeAsset_network (m : Method) (verb gerund : jsstring)
    (token : option jsstring) (request : UploadAssetRequest.t) (w : World) :
  network (snd (writeAsset getApiBase (Return token) fetch m verb gerund request w))
  = network w ++ [writeRequest getApiBase m token request].
Proof.
  unfold writeAsset, authorizationHeaders, writeRequest. unfold_js. cbv beta iota zeta.
  destruct (fetch _) as [r|e]; [|reflexivity].
  destruct (Response.ok r); simpl.
  - destruct (Response.json r); reflexivity.
  - destruct (Response.text r); reflexivity.
Qed.

Lemma writeAsset_ok (m : Method) (verb gerund : jsstring)
    (token : option jsstring) (request : UploadAssetRequest.t)
    (response : Response.t) (w : World) :
  fetch (writeRequest getApiBase m token request) = Return response ->
  Response.ok response = true ->
  fst (writeAsset getApiBase (Return token) fetch m verb gerund request w)
  = Response.json response.
Proof.
  intros F O.
  unfold writeAsset, authorizationHeaders. unfold_js. cbv beta iota zeta.
  unfold writeRequest in F. rewrite F, O. simpl.
  destruct (Response.json response); reflexivity.
Qed.

Lemma writeAsset_not_ok (m : Method) (verb gerund : jsstring)
    (token : option jsstring) (request : UploadAssetRequest.t)
    (response : Response.t) (errorText : jsstring) (w : World) :
  fetch (writeRequest getApiBase m token request) = Return response ->
  Response.ok response = false ->
  Response.text response = Return errorText ->
  fst (writeAsset getApiBase (Return token) fetch m verb gerund request w)
  = Throw (ErrorObject (lit "Failed to " ++ verb ++ lit " asset: "
                        ++ Response.statusText response ++ lit " - "
                        ++ errorText)).
Proof.
  intros F O T.
  unfold writeAsset, authorizationHeaders. unfold_js. cbv beta iota zeta.
  unfold writeRequest in F. rewrite F, O, T. reflexivity.
Qed.

Lemma writeAsset_fst (m : Method) (verb gerund : jsstring)
    (token : option jsstring) (request : UploadAssetRequest.t) (w : World) :
  fst (writeAsset getApiBase (Return token) fetch m verb gerund request w)
  = writeCompletion verb (fetch (writeRequest getApiBase m token request)).
Proof.
  unfold writeAsset, authorizationHeaders, writeRequest, writeCompletion.
  unfold_js. cbv beta iota zeta.
  destruct (fetch _) as [r|e]; [|reflexivity].
  destruct (Response.ok r); simpl.
  - destruct (Response.json r); reflexivity.
  - destruct (Response.text r); reflexivity.
Qed.

Lemma deleteAsset_fst (token : option jsstring) (assetType : BrandingAssetType)
    (w : World) :
  fst (deleteAsset getApiBase (Return token) fetch assetType w)
  = deleteCompletion (fetch (deleteRequest getApiBase token assetType)).
Proof.
  unfold deleteAsset, authorizationHeaders, deleteRequest, deleteCompletion.
  unfold_js. cbv beta iota zeta.
  destruct (fetch _) as [r|e]; [|reflexivity].
  destruct (Response.ok r); simpl; [reflexivity|].
  destruct (Response.text r); reflexivity.
Qed.

Lemma deleteAsset_network (token : option jsstring)
    (assetType : BrandingAssetType) (w : World) :
  network (snd (deleteAsset getApiBase (Return token) fetch assetType w))
  = network w ++ [deleteRequest getApiBase token assetType].
Proof.
  unfold deleteAsset, authorizationHeaders, deleteRequest. unfold_js. cbv beta iota zeta.
  destruct (fetch _) as [r|e]; [|reflexivity].
  destruct (Response.ok r); simpl; [reflexivity|].
  destruct (Response.text r); reflexivity.
Qed.

Lemma deleteAsset_ok (token : option jsstring) (assetType : BrandingAssetType)
    (response : Response.t) (w : World) :
  fetch (deleteRequest getApiBase token assetType) = Return response ->
  Response.ok response = true ->
  fst (deleteAsset getApiBase (Return token) fetch assetType w) = Return tt.
Proof.
  intros F O.
  unfold deleteAsset, authorizationHeaders. unfold_js. cbv beta iota zeta.
  unfold deleteRequest in F. rewrite F, O. reflexivity.
Qed.

Lemma deleteAsset_not_ok (token : option jsstring)
    (assetType : BrandingAssetType) (response : Response.t)
    (errorText : jsstring) (w : World) :
  fetch (deleteRequest getApiBase token assetType) = Return response ->
  Response.ok response = false ->
  Response.text response = Return errorText ->
  fst (deleteAsset getApiBase (Return token) fetch assetType w)
  = Throw (ErrorObject (lit "Failed to delete asset: "
                        ++ Response.statusText response ++ lit " - "
                        ++ errorText)).
Proof.
  intros F O T.
  unfold deleteAsset, authorizationHeaders. unfold_js. cbv beta iota zeta.
  unfold deleteRequest in F. rewrite F, O, T. reflexivity.
Qed.

(** A round falls back for a type whose read throws, returns null, or
    returns an asset whose selected field is missing or empty. *)
Lemma refreshAssets_falls_back (t : BrandingAssetType) (w : World) :
  (forall a, fst (getAssetByType getApiBase fetch t w) = Return (Some a) ->
             truthy (selectedField t a) = false) ->
  displayValue t
    (hook (snd (refreshAssets getApiBase getAssetBase fetch noFault w)))
  = hookFallback getAssetBase t.
Proof.
  intros U.
  destruct (refreshAssets_settled noFault w) as [_ H]. rewrite H. simpl.
  destruct t; simpl;
    destruct (fst (getAssetByType getApiBase fetch _ w)) as [[a|]|e];
    try reflexivity;
    specialize (U a eq_refl); simpl in *;
    match goal with
    | |- context [match ?f with _ => _ end] => destruct f as [s|]
    end; try reflexivity; simpl in U; now rewrite U.
Qed.

(** A round adopts a field that is made of white space only. *)
Lemma refreshAssets_adopts_white_space (t : BrandingAssetType)
    (a : BrandingAsset.t) (V : jsstring) (w : World) :
  fst (getAssetByType getApiBase fetch t w) = Return (Some a) ->
  selectedField t a = Some V ->
  V <> [] ->
  displayValue t
    (hook (snd (refreshAssets getApiBase getAssetBase fetch noFault w))) = V.
Proof.
  intros R S N. apply nonEmpty_true_iff in N.
  destruct (refreshAssets_settled noFault w) as [_ H]. rewrite H. simpl.
  destruct t; simpl; rewrite R; simpl; simpl in S; rewrite S; now rewrite N.
Qed.

(** ** Properties of the specification *)

(** C2: after a resolution round, whatever the reads did and whether or
    not something else threw, the round has completed, [loading] is
    false, and each of [logoUrl] and [footerText] is a non-empty string
    that is the fallback of its type or the field of the asset read. *)
Theorem C2_round_settles_on_concrete_values
    (unexpected : Stage -> option Thrown) (w : World) :
  let r := refreshAssets getApiBase getAssetBase fetch unexpected w in
  fst r = Return tt
  /\ loading (hook (snd r)) = false
  /\ forall t : BrandingAssetType,
       nonEmpty (displayValue t (hook (snd r))) = true
       /\ (displayValue t (hook (snd r)) = hookFallback getAssetBase t
           \/ exists a,
                fst (getAssetByType getApiBase fetch t w) = Return (Some a)
                /\ selectedField t a = Some (displayValue t (hook (snd r)))).
Proof.
  cbv zeta.
  destruct (refreshAssets_settled unexpected w) as [R H].
  split; [exact R|]. rewrite H. clear R H.
  destruct (firstFault unexpected) as [e|].
  - split; [reflexivity|]. intros t. split.
    + apply nonEmpty_true_iff.
      destruct t; simpl; [apply fallbackLogoUrl_nonEmpty | discriminate].
    + left. now destruct t.
  - split; [reflexivity|]. intros t. split.
    + apply nonEmpty_true_iff. destruct t; apply batchValue_nonEmpty.
    + assert (displayValue t
                {| logoUrl := batchValue getAssetBase logo
                     (fst (getAssetByType getApiBase fetch logo w));
                   footerText := batchValue getAssetBase footer
                     (fst (getAssetByType getApiBase fetch footer w));
                   loading := false; error := None |}
              = batchValue getAssetBase t
                  (fst (getAssetByType getApiBase fetch t w))) as ->
        by now destruct t.
      unfold batchValue.
      destruct (fst (getAssetByType getApiBase fetch t w)) as [[a|]|e];
        try (now left).
      destruct (selectedField t a) as [s|] eqn:S; [|now left].
      destruct (nonEmpty s); [|now left].
      right. exists a. split; [reflexivity | exact S].
Qed.

(** C4: when the logo read rejects and the footer read fulfils with a
    usable text, the round settles with the fallback logo, the remote
    footer text and [loading] false. *)
Theorem C4_logo_rejected_footer_adopted
    (reason : Thrown) (a : BrandingAsset.t) (V : jsstring) (w : World) :
  fst (getAssetByType getApiBase fetch logo w) = Throw reason ->
  fst (getAssetByType getApiBase fetch footer w) = Return (Some a) ->
  BrandingAsset.text a = Some V ->
  blank V = false ->
  let h := hook (snd (refreshAssets getApiBase getAssetBase fetch noFault w)) in
  logoUrl h = fallbackLogoUrl getAssetBase
  /\ footerText h = V
  /\ loading h = false.
Proof.
  intros L F T B. cbv zeta.
  destruct (refreshAssets_settled noFault w) as [_ H]. rewrite H.
  simpl. rewrite L, F. simpl. rewrite T.
  rewrite (blank_false_nonEmpty V B). repeat split.
Qed.

(** C5: when the read of a type returns an asset whose selected field is
    a string V that is not blank, both the round and the helper of the
    type resolve to V itself. *)
Theorem C5_remote_value_verbatim
    (t : BrandingAssetType) (a : BrandingAsset.t) (V : jsstring) (w : World) :
  fst (getAssetByType getApiBase fetch t w) = Return (Some a) ->
  selectedField t a = Some V ->
  blank V = false ->
  displayValue t
    (hook (snd (refreshAssets getApiBase getAssetBase fetch noFault w))) = V
  /\ fst (helper getApiBase fetch t w) = Return V.
Proof.
  intros R S B. split.
  - destruct (refreshAssets_settled noFault w) as [_ H]. rewrite H.
    simpl.
    destruct t; simpl; rewrite R; simpl; simpl in S; rewrite S;
      now rewrite (blank_false_nonEmpty V B).
  - rewrite helper_fst, R, S, orFallback_usable, B. reflexivity.
Qed.

(** C6: a read answered with status 404 returns null, logs nothing and
    throws nothing; a read answered with any other status outside
    200-299 throws an [Error] that carries the status text. *)
Theorem C6_not_found_is_absent_other_status_throws
    (t : BrandingAssetType) (response : Response.t) (w : World) :
  fetch (getAssetRequest getApiBase t) = Return response ->
  (Response.status response = 404%Z ->
   getAssetByType getApiBase fetch t w
   = (Return None, sent (getAssetRequest getApiBase t) w))
  /\ (Response.status response <> 404%Z ->
      (Response.status response < 200 \/ 299 < Response.status response)%Z ->
      fst (getAssetByType getApiBase fetch t w)
      = Throw (ErrorObject (lit "Failed to fetch " ++ typeName t
                            ++ lit " asset: " ++ Response.statusText response))).
Proof.
  intros F. unfold getAssetByType. unfold_js. rewrite F. split.
  - intros S. rewrite S. reflexivity.
  - intros N O.
    destruct (Z.eqb_spec (Response.status response) 404); [contradiction|].
    unfold Response.ok.
    destruct (Z.leb_spec 200 (Response.status response));
      destruct (Z.leb_spec (Response.status response) 299);
      simpl; try reflexivity; lia.
Qed.

(** C7: the aggregate error is set exactly when an exception comes from
    elsewhere than the reads; a rejected read leaves it unset, resolves
    its type to the fallback and is reported on the console. *)
Theorem C7_rejected_read_sets_no_aggregate_error
    (unexpected : Stage -> option Thrown) (w : World) :
  (error (hook (snd (refreshAssets getApiBase getAssetBase fetch unexpected w)))
   = None <-> forall s, unexpected s = None)
  /\ forall (t : BrandingAssetType) (reason : Thrown),
       fst (getAssetByType getApiBase fetch t w) = Throw reason ->
       displayValue t
         (hook (snd (refreshAssets getApiBase getAssetBase fetch unexpected w)))
       = hookFallback getAssetBase t
       /\ error (hook (snd (refreshAssets getApiBase getAssetBase fetch noFault w)))
          = None
       /\ In (rejectionWarning t reason)
             (console (snd (refreshAssets getApiBase getAssetBase fetch noFault w))).
Proof.
  split.
  - destruct (refreshAssets_settled unexpected w) as [_ H]. rewrite H.
    rewrite <- firstFault_None.
    destruct (firstFault unexpected); simpl; split; congruence.
  - intros t reason R. split; [|split].
    + destruct (refreshAssets_settled unexpected w) as [_ H]. rewrite H.
      destruct (firstFault unexpected); destruct t; simpl;
        try reflexivity; now rewrite R.
    + destruct (refreshAssets_settled noFault w) as [_ H]. now rewrite H.
    + now apply refreshAssets_warns.
Qed.

(** C9: [hasManagementPermission] returns true exactly when
    [getToken] returns a non-empty token, and false when [getToken]
    throws; it never throws itself. *)
Theorem C9_permission_is_token_presence (w : World) :
  exists b : bool,
    fst (hasManagementPermission getToken w) = Return b
    /\ (b = true <-> exists s, getToken = Return (Some s) /\ s <> [])
    /\ ((exists e, getToken = Throw e) -> b = false).
Proof.
  unfold hasManagementPermission. unfold_js.
  destruct getToken as [[s|]|e]; simpl.
  - exists (nonEmpty s). split; [reflexivity|]. split.
    + rewrite nonEmpty_true_iff. split.
      * intros N. exists s. now split.
      * intros [s' [E N]]. now injection E as ->.
    + intros [e E]. discriminate E.
  - exists false. split; [reflexivity|]. split.
    + split; [discriminate|]. intros [s' [E _]]. discriminate E.
    + reflexivity.
  - exists false. split; [reflexivity|]. split.
    + split; [discriminate|]. intros [s' [E _]]. discriminate E.
    + reflexivity.
Qed.

(** C10: [getLogoUrl] and [getFooterText] never reject: they return a
    non-empty string, which is the built-in fallback whenever the read
    throws, returns null, or returns an asset whose selected field is
    missing or blank. *)
Theorem C10_helpers_never_reject (t : BrandingAssetType) (w : World) :
  exists s : jsstring,
    fst (helper getApiBase fetch t w) = Return s
    /\ nonEmpty s = true
    /\ (forall e, fst (getAssetByType getApiBase fetch t w) = Throw e ->
        s = helperFallback t)
    /\ (fst (getAssetByType getApiBase fetch t w) = Return None ->
        s = helperFallback t)
    /\ (forall a, fst (getAssetByType getApiBase fetch t w) = Return (Some a) ->
        unusable (selectedField t a) = true -> s = helperFallback t).
Proof.
  eexists. split; [apply helper_fst|].
  pose proof (helperFallback_nonEmpty t) as F.
  destruct (fst (getAssetByType getApiBase fetch t w)) as [[a|]|e].
  - split; [apply nonEmpty_true_iff; now apply orFallback_nonEmpty|].
    repeat split; try discriminate.
    intros a' E U. injection E as <-. rewrite orFallback_usable.
    unfold unusable in U. destruct (selectedField t a) as [s|]; [|reflexivity].
    now rewrite U.
  - split; [now apply nonEmpty_true_iff|]. repeat split; reflexivity.
  - split; [now apply nonEmpty_true_iff|]. repeat split; reflexivity.
Qed.

(** C3, as the code has it: a write made without a credential is not
    stopped on the client.  It sends its one request, with the
    authorization header built from the stringified token, and it
    completes as the transport and the response dictate: with the
    rejection of [fetch]; for a status outside 200-299 with the [Error]
    made of the status text and the body text; for a status in 200-299
    as [json()] completes for [uploadAsset] and [updateAsset] (the parsed
    asset, or the rejection of [json()] when there is no body to parse),
    and normally for [deleteAsset]. *)
Theorem C3_write_without_credential_is_sent
    (token : option jsstring) (w : World) :
  truthy token = false ->
  (forall request : UploadAssetRequest.t,
     network (snd (uploadAsset getApiBase (Return token) fetch request w))
     = network w ++ [writeRequest getApiBase POST token request]
     /\ fst (uploadAsset getApiBase (Return token) fetch request w)
        = writeCompletion (lit "upload")
            (fetch (writeRequest getApiBase POST token request))
     /\ forall response,
          fetch (writeRequest getApiBase POST token request) = Return response ->
          Response.ok response = true ->
          fst (uploadAsset getApiBase (Return token) fetch request w)
          = Response.json response)
  /\ (forall request : UpdateAssetRequest.t,
        network (snd (updateAsset getApiBase (Return token) fetch request w))
        = network w ++ [writeRequest getApiBase PUT token request]
        /\ fst (updateAsset getApiBase (Return token) fetch request w)
           = writeCompletion (lit "update")
               (fetch (writeRequest getApiBase PUT token request))
        /\ forall response,
             fetch (writeRequest getApiBase PUT token request) = Return response ->
             Response.ok response = true ->
             fst (updateAsset getApiBase (Return token) fetch request w)
             = Response.json response)
  /\ (forall assetType : BrandingAssetType,
        network (snd (deleteAsset getApiBase (Return token) fetch assetType w))
        = network w ++ [deleteRequest getApiBase token assetType]
        /\ fst (deleteAsset getApiBase (Return token) fetch assetType w)
           = deleteCompletion (fetch (deleteRequest getApiBase token assetType))
        /\ forall response,
             fetch (deleteRequest getApiBase token assetType) = Return response ->
             Response.ok response = true ->
             fst (deleteAsset getApiBase (Return token) fetch assetType w)
             = Return tt).
Proof.
  intros _. repeat split.
  - rewrite uploadAsset_writeAsset. apply writeAsset_network.
  - rewrite uploadAsset_writeAsset. apply writeAsset_fst.
  - intros response. rewrite uploadAsset_writeAsset. apply writeAsset_ok.
  - rewrite updateAsset_writeAsset. apply writeAsset_network.
  - rewrite updateAsset_writeAsset. apply writeAsset_fst.
  - intros response. rewrite updateAsset_writeAsset. apply writeAsset_ok.
  - apply deleteAsset_network.
  - apply deleteAsset_fst.
  - intros response. apply deleteAsset_ok.
Qed.

(** C8, as the code has it: for every status outside 200-299 a write
    throws the same kind of value, an [Error] whose message is
    "Failed to upload (update, delete) asset: ", the status text, " - "
    and the text of the response body, unchanged, at its end. *)
Theorem C8_write_failure_is_one_generic_error
    (token : option jsstring) (response : Response.t) (errorText : jsstring)
    (w : World) :
  Response.ok response = false ->
  Response.text response = Return errorText ->
  (forall request : UploadAssetRequest.t,
     fetch (writeRequest getApiBase POST token request) = Return response ->
     fst (uploadAsset getApiBase (Return token) fetch request w)
     = Throw (ErrorObject (lit "Failed to upload asset: "
                           ++ Response.statusText response ++ lit " - "
                           ++ errorText)))
  /\ (forall request : UpdateAssetRequest.t,
        fetch (writeRequest getApiBase PUT token request) = Return response ->
        fst (updateAsset getApiBase (Return token) fetch request w)
        = Throw (ErrorObject (lit "Failed to update asset: "
                              ++ Response.statusText response ++ lit " - "
                              ++ errorText)))
  /\ (forall assetType : BrandingAssetType,
        fetch (deleteRequest getApiBase token assetType) = Return response ->
        fst (deleteAsset getApiBase (Return token) fetch assetType w)
        = Throw (ErrorObject (lit "Failed to delete asset: "
                              ++ Response.statusText response ++ lit " - "
                              ++ errorText))).
Proof.
  intros O T. repeat split.
  - intros request F. rewrite uploadAsset_writeAsset.
    apply (writeAsset_not_ok (lit "upload") (lit "uploading") w F O T).
  - intros request F. rewrite updateAsset_writeAsset.
    apply (writeAsset_not_ok (lit "update") (lit "updating") w F O T).
  - intros assetType F. now apply deleteAsset_not_ok.
Qed.

End Properties.

(** ** The properties at concrete backends *)

Import Sample.

(** C1: at a backend whose logo asset has a [url] of one space, a field
    made of white space only, the helper [getLogoUrl] returns its fallback
    but the round of [refreshAssets] shows the space itself, which is not
    the fallback of the hook. *)
Theorem C1_round_shows_white_space_url :
  fst (getAssetByType apiBase blankLogo logo world0)
  = Return (Some (logoAssetWith (Some (lit " "))))
  /\ unusable (selectedField logo (logoAssetWith (Some (lit " ")))) = true
  /\ fst (getLogoUrl apiBase blankLogo world0) = Return staticLogoUrl
  /\ logoUrl (hook (snd (refreshAssets apiBase assetBase blankLogo noFault world0)))
     = lit " "
  /\ jsstring_eqb (lit " ") (fallbackLogoUrl assetBase) = false.
Proof. repeat split; vm_compute; reflexivity. Qed.

(** C3, refuted as stated: with no token at all, [uploadAsset] completes
    normally with the asset of the response, after it has sent its request
    with the header [authorization: Bearer undefined]. *)
Lemma C3_counterexample_upload_without_token :
  truthy None = false
  /\ uploadAsset apiBase (Return None)
       (always (Return (okResponse (Some (footerAssetWith (Some customFooter))))))
       footerRequest world0
     = (Return (Some (footerAssetWith (Some customFooter))),
        sent (writeRequest apiBase POST None footerRequest) world0)
  /\ headers (writeRequest apiBase POST None footerRequest)
     = [(lit "authorization", lit "Bearer undefined")]
  /\ network (sent (writeRequest apiBase POST None footerRequest) world0)
     = [writeRequest apiBase POST None footerRequest].
Proof. repeat split. Qed.

(** C3 with no token: an upload answered with a 200 returns the asset of
    the body, an update answered with a 204 sends its request and throws
    what [json()] throws, and a delete answered with a 200 completes
    normally. *)
Lemma C3_witness_writes_without_token :
  truthy None = false
  /\ fst (uploadAsset apiBase (Return None)
            (always (Return (okResponse (Some (footerAssetWith (Some customFooter))))))
            footerRequest world0)
     = Return (Some (footerAssetWith (Some customFooter)))
  /\ network (snd (updateAsset apiBase (Return None)
                     (always (Return MoreSample.noContent)) footerRequest world0))
     = [writeRequest apiBase PUT None footerRequest]
  /\ fst (updateAsset apiBase (Return None)
            (always (Return MoreSample.noContent)) footerRequest world0)
     = Throw (ErrorObject (lit "Unexpected end of JSON input"))
  /\ network (snd (deleteAsset apiBase (Return None)
                     (always (Return (okResponse None))) logo world0))
     = [deleteRequest apiBase None logo]
  /\ fst (deleteAsset apiBase (Return None)
            (always (Return (okResponse None))) logo world0)
     = Return tt.
Proof.
  split; [reflexivity|].
  destruct (C3_write_without_credential_is_sent apiBase
              (always (Return (okResponse (Some (footerAssetWith (Some customFooter))))))
              None world0 eq_refl) as [U _].
  destruct (U footerRequest) as [_ [_ S]].
  split; [exact (S _ eq_refl eq_refl)|].
  destruct (C3_write_without_credential_is_sent apiBase
              (always (Return MoreSample.noContent)) None world0 eq_refl)
    as [_ [P _]].
  destruct (P footerRequest) as [N [F _]].
  split; [exact N|]. split; [exact F|].
  destruct (C3_write_without_credential_is_sent apiBase
              (always (Return (okResponse None))) None world0 eq_refl)
    as [_ [_ D]].
  destruct (D logo) as [N' [_ S']].
  split; [exact N' | exact (S' _ eq_refl eq_refl)].
Defined.

(** C4 at a backend whose logo read fails on the network and whose footer
    is configured. *)
Lemma C4_witness_logo_down_footer_up :
  fst (getAssetByType apiBase logoDownFooterUp logo world0) = Throw (ErrorObject (lit "Failed to fetch"))
  /\ logoUrl (hook (snd (refreshAssets apiBase assetBase logoDownFooterUp
                           noFault world0)))
     = fallbackLogoUrl assetBase
  /\ footerText (hook (snd (refreshAssets apiBase assetBase logoDownFooterUp
                              noFault world0)))
     = customFooter
  /\ loading (hook (snd (refreshAssets apiBase assetBase logoDownFooterUp
                          noFault world0)))
     = false.
Proof.
  split; [reflexivity|].
  apply (@C4_logo_rejected_footer_adopted apiBase assetBase logoDownFooterUp
           (ErrorObject (lit "Failed to fetch"))
           (footerAssetWith (Some customFooter)) customFooter world0);
    reflexivity.
Defined.

(** C5 at a backend with a custom logo: the round and [getLogoUrl] both
    give its [url]. *)
Lemma C5_witness_custom_logo :
  blank customLogo = false
  /\ logoUrl (hook (snd (refreshAssets apiBase assetBase bothUp noFault world0)))
     = customLogo
  /\ fst (getLogoUrl apiBase bothUp world0) = Return customLogo.
Proof.
  split; [reflexivity|].
  apply (@C5_remote_value_verbatim apiBase assetBase bothUp logo
           (logoAssetWith (Some customLogo)) customLogo world0);
    reflexivity.
Defined.

(** C6 at a 404 for the logo and at a 503 for the footer. *)
Lemma C6_witness_404_and_503 :
  getAssetByType apiBase (always (Return notFound)) logo world0
  = (Return None, sent (getAssetRequest apiBase logo) world0)
  /\ fst (getAssetByType apiBase
            (always (Return (failResponse 503 (lit "Service Unavailable") [])))
            footer world0)
     = Throw (ErrorObject (lit "Failed to fetch footer asset: Service Unavailable")).
Proof.
  split.
  - apply (proj1 (@C6_not_found_is_absent_other_status_throws apiBase
                    (always (Return notFound)) logo notFound world0 eq_refl)).
    reflexivity.
  - apply (proj2 (@C6_not_found_is_absent_other_status_throws apiBase
                    (always (Return (failResponse 503 (lit "Service Unavailable") [])))
                    footer (failResponse 503 (lit "Service Unavailable") [])
                    world0 eq_refl)).
    + discriminate.
    + right. reflexivity.
Defined.

(** C8, refuted as stated: over a connection that sends no status text,
    the responses 401, 403, 400 and 500 with the same body make
    [uploadAsset] throw the very same value, so nothing in what is thrown
    tells an authorization failure or a validation failure from another
    one; and the message thrown for a 400 is not the message of the
    backend alone. *)
Lemma C8_counterexample_same_error_for_401_and_500 :
  fst (uploadAsset apiBase (Return (Some (lit "t0k")))
         (always (Return (failResponse 401 [] (lit "rejected"))))
         footerRequest world0)
  = Throw (ErrorObject (lit "Failed to upload asset:  - rejected"))
  /\ fst (uploadAsset apiBase (Return (Some (lit "t0k")))
            (always (Return (failResponse 500 [] (lit "rejected"))))
            footerRequest world0)
     = Throw (ErrorObject (lit "Failed to upload asset:  - rejected"))
  /\ fst (uploadAsset apiBase (Return (Some (lit "t0k")))
            (always (Return (failResponse 403 [] (lit "rejected"))))
            footerRequest world0)
     = Throw (ErrorObject (lit "Failed to upload asset:  - rejected"))
  /\ fst (uploadAsset apiBase (Return (Some (lit "t0k")))
            (always (Return (failResponse 400 [] (lit "rejected"))))
            footerRequest world0)
     = Throw (ErrorObject (lit "Failed to upload asset:  - rejected"))
  /\ jsstring_eqb (lit "Failed to upload asset:  - rejected") (lit "rejected")
     = false.
Proof. repeat split. Qed.

(** C8 at a 400 answered to [updateAsset]. *)
Lemma C8_witness_update_rejected_with_400 :
  Response.ok (failResponse 400 (lit "Bad Request") (lit "Text too long")) = false
  /\ fst (updateAsset apiBase (Return (Some (lit "t0k")))
            (always (Return (failResponse 400 (lit "Bad Request")
                               (lit "Text too long"))))
            footerRequest world0)
     = Throw (ErrorObject (lit "Failed to update asset: Bad Request - Text too long")).
Proof.
  split; [reflexivity|].
  destruct (@C8_write_failure_is_one_generic_error apiBase
              (always (Return (failResponse 400 (lit "Bad Request")
                                 (lit "Text too long"))))
              (Some (lit "t0k"))
              (failResponse 400 (lit "Bad Request") (lit "Text too long"))
              (lit "Text too long") world0 eq_refl eq_refl) as [_ [U _]].
  exact (U footerRequest eq_refl).
Defined.

(** A round in which something else than a read throws: the aggregate
    error is set and both values are the fallbacks. *)
Example round_with_fault_sets_error :
  hook (snd (refreshAssets apiBase assetBase bothUp faultAfterLogo world0))
  = {| logoUrl := fallbackLogoUrl assetBase;
       footerText := footerFallbackText;
       loading := false;
       error := Some (lit "setState on unmounted tree") |}.
Proof. reflexivity. Qed.

(** The permission check on a token, on no token and on a failing
    [getToken]. *)
Example permission_runs :
  fst (hasManagementPermission (Return (Some (lit "t0k"))) world0) = Return true
  /\ fst (hasManagementPermission (Return None) world0) = Return false
  /\ fst (hasManagementPermission (Return (Some [])) world0) = Return false
  /\ fst (hasManagementPermission (Throw (OtherValue (lit "keycloak"))) world0)
     = Return false.
Proof. repeat split. Qed.

(** * Properties of the rest of the service, the hooks and the page *)

Ltac unfold_cell :=
  unfold Cell.bind, Cell.ret, Cell.lift, Cell.set, Cell.get, Cell.try_catch,
    Cell.try_finally in *.

Lemma blank_app (s t : jsstring) : blank (s ++ t) = blank s && blank t.
Proof. apply forallb_app. Qed.

Lemma fallbackLogoUrl_not_blank (base : jsstring) :
  blank (fallbackLogoUrl base) = false.
Proof.
  unfold fallbackLogoUrl. rewrite blank_app. apply andb_false_r.
Qed.

Lemma orFallback_not_blank (v : option jsstring) (fb : jsstring) :
  blank fb = false -> blank (orFallback v fb) = false.
Proof.
  intros F. rewrite orFallback_usable.
  destruct v as [s|]; [|exact F].
  destruct (blank s) eqn:B; [exact F | exact B].
Qed.

Lemma helperFallback_not_blank (t : BrandingAssetType) :
  blank (helperFallback t) = false.
Proof. destruct t; reflexivity. Qed.

Section MoreProperties.

Variable getApiBase : jsstring.
Variable getAssetBase : jsstring.
Variable fetch : Request -> Completion Response.t.

(** ** The reads of the service *)

(** X1: [getAllAssets] answered with a status outside 200-299, 404
    included, sends its one request, logs the error and throws an [Error]
    that carries the status text. *)
Theorem X1_getAllAssets_throws_on_every_non_2xx
    (jsonAssets : Response.t -> Completion BrandingAssetsResponse.t)
    (response : Response.t) (w : World) :
  fetch (getAllAssetsRequest getApiBase) = Return response ->
  Response.ok response = false ->
  getAllAssets getApiBase fetch jsonAssets w
  = (Throw (ErrorObject (lit "Failed to fetch branding assets: "
                         ++ Response.statusText response)),
     logged (errorEntry (lit "Error fetching branding assets:")
               (ErrorObject (lit "Failed to fetch branding assets: "
                             ++ Response.statusText response)))
       (sent (getAllAssetsRequest getApiBase) w)).
Proof.
  intros F O. unfold getAllAssets. unfold_js. cbv beta iota zeta.
  rewrite F, O. reflexivity.
Qed.

(** X2: a read of one asset always sends exactly its one request and
    leaves the hook alone; it writes one [console.error] entry with the
    value thrown when it throws, and nothing when it returns. *)
Theorem X2_read_sends_once_and_logs_what_it_throws
    (t : BrandingAssetType) (w : World) :
  snd (getAssetByType getApiBase fetch t w)
  = match fst (getAssetByType getApiBase fetch t w) with
    | Return _ => sent (getAssetRequest getApiBase t) w
    | Throw e =>
        logged (errorEntry (lit "Error fetching " ++ typeName t ++ lit " asset:") e)
          (sent (getAssetRequest getApiBase t) w)
    end.
Proof.
  unfold getAssetByType. unfold_js. cbv beta iota zeta.
  destruct (fetch (getAssetRequest getApiBase t)) as [r|e]; [|reflexivity].
  destruct (Response.status r =? 404)%Z; [reflexivity|].
  destruct (Response.ok r); simpl; [|reflexivity].
  destruct (Response.json r); reflexivity.
Qed.

(** X3: when [getToken] throws, each write throws the same value after it
    has logged it, and sends nothing. *)
Theorem X3_write_sends_nothing_when_getToken_throws (e : Thrown) (w : World) :
  (forall request,
     uploadAsset getApiBase (Throw e) fetch request w
     = (Throw e, logged (errorEntry (lit "Error uploading branding asset:") e) w))
  /\ (forall request,
        updateAsset getApiBase (Throw e) fetch request w
        = (Throw e, logged (errorEntry (lit "Error updating branding asset:") e) w))
  /\ (forall assetType,
        deleteAsset getApiBase (Throw e) fetch assetType w
        = (Throw e,
           logged (errorEntry (lit "Error deleting " ++ typeName assetType
                               ++ lit " asset:") e) w)).
Proof. repeat split. Qed.


(** ** The hooks with cells of their own *)

(** X4: [refresh] of [useSpecificAsset] never rejects and ends with
    [loading] false.  When the read returns (null for a 404 included) the
    asset is what was read and the error is null; when the read throws the
    error is set and the asset of before is kept. *)
Theorem X4_refresh_keeps_the_asset_on_failure
    (t : BrandingAssetType) (h : UseSpecificAsset.t) (w : World) :
  fst (fst (refresh getApiBase fetch t h w)) = Return tt
  /\ snd (fst (refresh getApiBase fetch t h w))
     = match fst (getAssetByType getApiBase fetch t w) with
       | Return fetched => UseSpecificAsset.mk fetched false None
       | Throw err =>
           UseSpecificAsset.mk (UseSpecificAsset.asset h) false
             (Some (refreshErrorMessage t err))
       end.
Proof.
  unfold refresh, UseSpecificAsset.setLoading, UseSpecificAsset.setError,
    UseSpecificAsset.setAsset.
  unfold_cell. cbv beta iota zeta.
  destruct (getAssetByType getApiBase fetch t w) as [[v|e] w1];
    simpl; split; reflexivity.
Qed.

(** The value [loadLogo] and [loadFooter] end with. *)
Lemma helper_value (t : BrandingAssetType) (w : World) :
  exists s, fst (helper getApiBase fetch t w) = Return s
            /\ blank s = false
            /\ (forall e, fst (getAssetByType getApiBase fetch t w) = Throw e ->
                s = helperFallback t)
            /\ (fst (getAssetByType getApiBase fetch t w) = Return None ->
                s = helperFallback t).
Proof.
  eexists. split; [apply helper_fst|].
  pose proof (helperFallback_not_blank t) as F.
  destruct (fst (getAssetByType getApiBase fetch t w)) as [[a|]|e].
  - split; [now apply orFallback_not_blank|]. split; [intros; discriminate|].
    discriminate.
  - repeat split; [exact F].
  - repeat split; [exact F].
Qed.

(** [loadLogo] ends with the string [getLogoUrl] returns. *)
Lemma loadLogo_run (h : UseLogo.t) (w : World) :
  exists s, fst (getLogoUrl getApiBase fetch w) = Return s
            /\ fst (loadLogo getApiBase getAssetBase fetch h w)
               = (Return tt, UseLogo.mk s false).
Proof.
  destruct (helper_value logo w) as [s [R _]]. simpl in R.
  exists s. split; [exact R|].
  unfold loadLogo, UseLogo.setLoading, UseLogo.setLogoUrl.
  unfold_cell. cbv beta iota zeta.
  destruct (getLogoUrl getApiBase fetch w) as [c w1]. simpl in R. subst c.
  reflexivity.
Qed.

(** X5: [loadLogo] of [useLogo] never rejects and ends with [loading]
    false and with the string [getLogoUrl] returns, which is never blank.
    When the read throws or returns null that string is the static logo of
    the service; the fallback of the hook's own [catch] is never used. *)
Theorem X5_loadLogo_shows_what_getLogoUrl_returns
    (h : UseLogo.t) (w : World) :
  fst (fst (loadLogo getApiBase getAssetBase fetch h w)) = Return tt
  /\ UseLogo.loading (snd (fst (loadLogo getApiBase getAssetBase fetch h w)))
     = false
  /\ fst (getLogoUrl getApiBase fetch w)
     = Return (UseLogo.logoUrl
                 (snd (fst (loadLogo getApiBase getAssetBase fetch h w))))
  /\ blank (UseLogo.logoUrl
              (snd (fst (loadLogo getApiBase getAssetBase fetch h w)))) = false
  /\ (forall e, fst (getAssetByType getApiBase fetch logo w) = Throw e ->
      UseLogo.logoUrl (snd (fst (loadLogo getApiBase getAssetBase fetch h w)))
      = staticLogoUrl)
  /\ (fst (getAssetByType getApiBase fetch logo w) = Return None ->
      UseLogo.logoUrl (snd (fst (loadLogo getApiBase getAssetBase fetch h w)))
      = staticLogoUrl).
Proof.
  destruct (helper_value logo w) as [s [R [B [T N]]]]. simpl in R, T, N.
  unfold loadLogo, UseLogo.setLoading, UseLogo.setLogoUrl.
  unfold_cell. cbv beta iota zeta.
  destruct (getLogoUrl getApiBase fetch w) as [c w1]. simpl in R. subst c.
  simpl. repeat split; assumption.
Qed.

(** X6: [loadFooter] of [useFooter] never rejects and ends with [loading]
    false and with the string [getFooterText] returns, which is never
    blank: the built-in text when the read throws or returns null. *)
Theorem X6_loadFooter_shows_what_getFooterText_returns
    (h : UseFooter.t) (w : World) :
  fst (fst (loadFooter getApiBase fetch h w)) = Return tt
  /\ UseFooter.loading (snd (fst (loadFooter getApiBase fetch h w))) = false
  /\ fst (getFooterText getApiBase fetch w)
     = Return (UseFooter.footerText (snd (fst (loadFooter getApiBase fetch h w))))
  /\ blank (UseFooter.footerText (snd (fst (loadFooter getApiBase fetch h w))))
     = false
  /\ (forall e, fst (getAssetByType getApiBase fetch footer w) = Throw e ->
      UseFooter.footerText (snd (fst (loadFooter getApiBase fetch h w)))
      = footerFallbackText)
  /\ (fst (getAssetByType getApiBase fetch footer w) = Return None ->
      UseFooter.footerText (snd (fst (loadFooter getApiBase fetch h w)))
      = footerFallbackText).
Proof.
  destruct (helper_value footer w) as [s [R [B [T N]]]]. simpl in R, T, N.
  unfold loadFooter, UseFooter.setLoading, UseFooter.setFooterText.
  unfold_cell. unfold console_log, console_warn, consoleCall.
  cbv beta iota zeta.
  destruct (getFooterText getApiBase fetch w) as [c w1]. simpl in R. subst c.
  cbv beta iota zeta.
  rewrite (blank_false_nonEmpty s B).
  simpl. repeat split; assumption.
Qed.

(** ** The logo component *)

(** X7: whatever [logoUrl] and the [fallbackSrc] prop are, the [src] of
    the image and the [defaultFallback] that [onError] installs are never
    blank; a blank [logoUrl] gives [defaultFallback], and a blank or
    missing [fallbackSrc] gives the fallback logo of the assets base. *)
Theorem X7_image_src_is_never_blank
    (logoUrl : jsstring) (fallbackSrc : option jsstring) :
  blank (imageSrc getAssetBase logoUrl fallbackSrc) = false
  /\ blank (defaultFallback getAssetBase fallbackSrc) = false
  /\ (blank logoUrl = true ->
      imageSrc getAssetBase logoUrl fallbackSrc
      = defaultFallback getAssetBase fallbackSrc)
  /\ (unusable fallbackSrc = true ->
      defaultFallback getAssetBase fallbackSrc = fallbackLogoUrl getAssetBase).
Proof.
  assert (blank (defaultFallback getAssetBase fallbackSrc) = false) as D
    by (apply orFallback_not_blank, fallbackLogoUrl_not_blank).
  split; [now apply orFallback_not_blank|]. split; [exact D|]. split.
  - intros B. unfold imageSrc. rewrite orFallback_usable. now rewrite B.
  - intros U. unfold defaultFallback. rewrite orFallback_usable.
    destruct fallbackSrc as [s|]; [|reflexivity]. simpl in U. now rewrite U.
Qed.

(** X8: fed with the [logoUrl] of [useLogo], at mount or after [loadLogo],
    the image shows that [logoUrl] itself: the [fallbackSrc] prop has no
    part in the [src]. *)
Theorem X8_fallbackSrc_never_reaches_the_src
    (fallbackSrc : option jsstring) (h : UseLogo.t) (w : World) :
  imageSrc getAssetBase (UseLogo.logoUrl (useLogo getAssetBase)) fallbackSrc
  = UseLogo.logoUrl (useLogo getAssetBase)
  /\ imageSrc getAssetBase
       (UseLogo.logoUrl (snd (fst (loadLogo getApiBase getAssetBase fetch h w))))
       fallbackSrc
     = UseLogo.logoUrl (snd (fst (loadLogo getApiBase getAssetBase fetch h w))).
Proof.
  split; unfold imageSrc; rewrite orFallback_usable.
  - simpl. now rewrite fallbackLogoUrl_not_blank.
  - destruct (loadLogo_run h w) as [s [R E]]. rewrite E. simpl.
    destruct (helper_value logo w) as [s' [R' [B _]]]. simpl in R'.
    rewrite R in R'. injection R' as <-. now rewrite B.
Qed.


(** ** The two logos *)

Lemma staticLogoUrl_is_not_fallbackLogoUrl :
  staticLogoUrl <> fallbackLogoUrl getAssetBase.
Proof.
  intros E. apply (f_equal (@List.length _)) in E.
  unfold fallbackLogoUrl in E. rewrite List.length_app in E.
  change (List.length staticLogoUrl) with 24 in E.
  change (List.length (lit "/images/logos/cx-text.svg")) with 25 in E.
  lia.
Qed.

(** X9: when the read of the logo throws or returns null, [useLogo] ends
    with the static logo of the service and [useBrandingAssets] with the
    fallback logo of the assets base, and the two are never the same
    string. *)
Theorem X9_the_two_hooks_fall_back_to_different_logos
    (h : UseLogo.t) (w : World) :
  (fst (getAssetByType getApiBase fetch logo w) = Return None
   \/ exists e, fst (getAssetByType getApiBase fetch logo w) = Throw e) ->
  UseLogo.logoUrl (snd (fst (loadLogo getApiBase getAssetBase fetch h w)))
  = staticLogoUrl
  /\ logoUrl (hook (snd (refreshAssets getApiBase getAssetBase fetch noFault w)))
     = fallbackLogoUrl getAssetBase
  /\ staticLogoUrl <> fallbackLogoUrl getAssetBase.
Proof.
  intros A.
  destruct (loadLogo_run h w) as [s [R E]]. rewrite E. simpl.
  destruct (helper_value logo w) as [s' [R' [_ [T N]]]]. simpl in R', T, N.
  rewrite R in R'. injection R' as <-.
  destruct (refreshAssets_settled getApiBase getAssetBase fetch noFault w)
    as [_ H].
  rewrite H. simpl.
  split; [|split; [|apply staticLogoUrl_is_not_fallbackLogoUrl]].
  - destruct A as [A|[e A]]; [now apply N | now apply (T e)].
  - destruct A as [A|[e A]]; now rewrite A.
Qed.

(** ** More on a resolution round *)

Lemma getAssetByType_network (t : BrandingAssetType) (w : World) :
  network (snd (getAssetByType getApiBase fetch t w))
  = network w ++ [getAssetRequest getApiBase t].
Proof.
  unfold getAssetByType. unfold_js. cbv beta iota zeta.
  destruct (fetch (getAssetRequest getApiBase t)) as [r|e]; [|reflexivity].
  destruct (Response.status r =? 404)%Z; [reflexivity|].
  destruct (Response.ok r); simpl; [|reflexivity].
  destruct (Response.json r); reflexivity.
Qed.

Ltac read_net t c w' N :=
  match goal with
  | |- context [getAssetByType getApiBase fetch t ?w0] =>
      pose proof (getAssetByType_network t w0) as N;
      destruct (getAssetByType getApiBase fetch t w0) as [c w']
  end.

Lemma refreshAssets_network (unexpected : Stage -> option Thrown) (w : World) :
  network (snd (refreshAssets getApiBase getAssetBase fetch unexpected w))
  = network w ++ match unexpected BeforeFetch with
                 | None => roundRequests getApiBase
                 | Some _ => []
                 end.
Proof.
  unfold refreshAssets, interrupt, roundRequests. unfold_js. cbn.
  destruct (unexpected BeforeFetch) as [e0|]; [cbn; now rewrite app_nil_r|].
  cbn.
  read_net logo c1 w1 N1. simpl in N1.
  destruct c1 as [v1|e1]; cbn;
    read_net footer c2 w2 N2; simpl in N2;
    (assert (network w2 = network w ++ [getAssetRequest getApiBase logo;
                                        getAssetRequest getApiBase footer]) as N
       by (rewrite N2, N1, <- app_assoc; reflexivity));
    clear N1 N2;
    (destruct c2 as [v2|e2]; cbn;
     (destruct (unexpected AfterSettle) as [e|]; cbn; [exact N|])).
  all: unfold fulfilledField, optChain.
  all: try (destruct v1 as [a1|]); try (destruct v2 as [a2|]).
  all: try (destruct (BrandingAsset.url a1) as [u|]; [destruct (nonEmpty u)|]).
  all: cbn.
  all: (destruct (unexpected AfterLogo) as [e|]; cbn; [exact N|]).
  all: try (destruct (BrandingAsset.text a2) as [x|]; [destruct (nonEmpty x)|]).
  all: cbn.
  all: (destruct (unexpected AfterFooter) as [e|]; cbn; exact N).
Qed.

(** X10: a resolution round sends the read of the logo and then the read
    of the footer, both, whatever the answer to the first is, and nothing
    else; when an exception from elsewhere comes before the reads, it
    sends nothing. *)
Theorem X10_round_sends_both_reads_in_order
    (unexpected : Stage -> option Thrown) (w : World) :
  (unexpected BeforeFetch = None ->
   network (snd (refreshAssets getApiBase getAssetBase fetch unexpected w))
   = network w ++ [getAssetRequest getApiBase logo;
                   getAssetRequest getApiBase footer])
  /\ (forall e, unexpected BeforeFetch = Some e ->
      network (snd (refreshAssets getApiBase getAssetBase fetch unexpected w))
      = network w).
Proof.
  rewrite refreshAssets_network. split.
  - intros ->. reflexivity.
  - intros e ->. apply app_nil_r.
Qed.

Lemma refreshAssets_hook_fresh (unexpected : Stage -> option Thrown)
    (w w' : World) :
  hook (snd (refreshAssets getApiBase getAssetBase fetch unexpected w))
  = hook (snd (refreshAssets getApiBase getAssetBase fetch unexpected w')).
Proof.
  destruct (refreshAssets_settled getApiBase getAssetBase fetch unexpected w)
    as [_ ->].
  destruct (refreshAssets_settled getApiBase getAssetBase fetch unexpected w')
    as [_ ->].
  now rewrite (getAssetByType_fst getApiBase fetch logo w w'),
    (getAssetByType_fst getApiBase fetch footer w w').
Qed.

(** X11: what a round leaves in the hook does not depend on what the hook
    held before: values and error of an earlier round are replaced
    wholesale, and a second round over the same backend changes nothing. *)
Theorem X11_round_replaces_the_hook_state_wholesale
    (unexpected : Stage -> option Thrown) (w w' : World) :
  hook (snd (refreshAssets getApiBase getAssetBase fetch unexpected w))
  = hook (snd (refreshAssets getApiBase getAssetBase fetch unexpected w'))
  /\ hook (snd (refreshAssets getApiBase getAssetBase fetch unexpected
                  (snd (refreshAssets getApiBase getAssetBase fetch unexpected w))))
     = hook (snd (refreshAssets getApiBase getAssetBase fetch unexpected w)).
Proof. split; apply refreshAssets_hook_fresh. Qed.


(** ** The handlers of the management page *)

Lemma refreshAssets_returns (unexpected : Stage -> option Thrown) (w : World) :
  exists w', refreshAssets getApiBase getAssetBase fetch unexpected w
             = (Return tt, w').
Proof.
  destruct (refreshAssets_settled getApiBase getAssetBase fetch unexpected w)
    as [R _].
  destruct (refreshAssets getApiBase getAssetBase fetch unexpected w) as [c w'].
  simpl in R. subst c. now exists w'.
Qed.

Ltac unfold_page :=
  unfold handleLogoUpload, handleFooterUpdate, handleDeleteAsset,
    Page.setIsUploading, Page.setIsUpdating, Page.setIsDeleting,
    Page.setEditingFooter, Page.setFooterTextEdit, Page.setMessage;
  unfold_cell; unfold console_error, consoleCall; cbv beta iota zeta.

Lemma handleLogoUpload_run (getToken : Completion (option jsstring))
    (unexpected : Stage -> option Thrown) (file : File) (p : Page.t) (w : World) :
  handleLogoUpload getApiBase getAssetBase getToken fetch unexpected file p w
  = match uploadAsset getApiBase getToken fetch
            (UploadAssetRequest.mk logo (Some file) None) w with
    | (Return _, w1) =>
        (Return tt,
         Page.mk false (Page.isUpdating p) (Page.isDeleting p)
           (Page.editingFooter p) (Page.footerTextEdit p)
           (lit "Logo uploaded successfully!"),
         snd (refreshAssets getApiBase getAssetBase fetch unexpected w1))
    | (Throw e, w1) =>
        (Return tt,
         Page.mk false (Page.isUpdating p) (Page.isDeleting p)
           (Page.editingFooter p) (Page.footerTextEdit p)
           (lit "Failed to upload logo. Please try again."),
         logged (errorEntry (lit "Error uploading logo:") e) w1)
    end.
Proof.
  unfold_page.
  destruct (uploadAsset _ _ _ _ w) as [[v|e] w1]; [|reflexivity].
  destruct (refreshAssets_returns unexpected w1) as [w2 ->]. reflexivity.
Qed.

Lemma handleFooterUpdate_run (getToken : Completion (option jsstring))
    (unexpected : Stage -> option Thrown) (p : Page.t) (w : World) :
  handleFooterUpdate getApiBase getAssetBase getToken fetch unexpected p w
  = match updateAsset getApiBase getToken fetch
            (UpdateAssetRequest.mk footer None (Some (Page.footerTextEdit p))) w
    with
    | (Return _, w1) =>
        (Return tt,
         Page.mk (Page.isUploading p) false (Page.isDeleting p) false
           (Page.footerTextEdit p) (lit "Footer text updated successfully!"),
         snd (refreshAssets getApiBase getAssetBase fetch unexpected w1))
    | (Throw e, w1) =>
        (Return tt,
         Page.mk (Page.isUploading p) false (Page.isDeleting p)
           (Page.editingFooter p) (Page.footerTextEdit p)
           (lit "Failed to update footer text. Please try again."),
         logged (errorEntry (lit "Error updating footer text:") e) w1)
    end.
Proof.
  unfold_page.
  destruct (updateAsset _ _ _ _ w) as [[v|e] w1]; [|reflexivity].
  destruct (refreshAssets_returns unexpected w1) as [w2 ->]. reflexivity.
Qed.

Lemma handleDeleteAsset_run (getToken : Completion (option jsstring))
    (unexpected : Stage -> option Thrown) (t : BrandingAssetType)
    (p : Page.t) (w : World) :
  handleDeleteAsset getApiBase getAssetBase getToken fetch unexpected t p w
  = match deleteAsset getApiBase getToken fetch t w with
    | (Return _, w1) =>
        (Return tt,
         Page.mk (Page.isUploading p) (Page.isUpdating p) None
           (Page.editingFooter p) (Page.footerTextEdit p)
           (typeName t ++ lit " deleted successfully!"),
         snd (refreshAssets getApiBase getAssetBase fetch unexpected w1))
    | (Throw e, w1) =>
        (Return tt,
         Page.mk (Page.isUploading p) (Page.isUpdating p) None
           (Page.editingFooter p) (Page.footerTextEdit p)
           (lit "Failed to delete " ++ typeName t ++ lit ". Please try again."),
         logged (errorEntry (lit "Error deleting " ++ typeName t ++ lit ":") e) w1)
    end.
Proof.
  unfold_page.
  destruct (deleteAsset _ _ _ _ w) as [[v|e] w1]; [|reflexivity].
  destruct (refreshAssets_returns unexpected w1) as [w2 ->]. reflexivity.
Qed.

(** A write leaves the hook alone, whatever it completes with. *)
Lemma writeAsset_hook (getToken : Completion (option jsstring)) (m : Method)
    (verb gerund : jsstring) (request : UploadAssetRequest.t) (w : World) :
  hook (snd (writeAsset getApiBase getToken fetch m verb gerund request w))
  = hook w.
Proof.
  unfold writeAsset, authorizationHeaders. unfold_js. cbv beta iota zeta.
  destruct getToken as [token|e]; [|reflexivity]. cbv beta iota zeta.
  destruct (fetch _) as [r|e]; [|reflexivity].
  destruct (Response.ok r); simpl.
  - destruct (Response.json r); reflexivity.
  - destruct (Response.text r); reflexivity.
Qed.

Lemma deleteAsset_hook (getToken : Completion (option jsstring))
    (t : BrandingAssetType) (w : World) :
  hook (snd (deleteAsset getApiBase getToken fetch t w)) = hook w.
Proof.
  unfold deleteAsset, authorizationHeaders. unfold_js. cbv beta iota zeta.
  destruct getToken as [token|e]; [|reflexivity]. cbv beta iota zeta.
  destruct (fetch _) as [r|e]; [|reflexivity].
  destruct (Response.ok r); simpl; [reflexivity|].
  destruct (Response.text r); reflexivity.
Qed.

(** X12: when the write of a handler throws, the handler still completes
    normally; it resets its busy flag, shows its failure message, logs the
    value caught, and runs no resolution round: the hook is as before and
    no read is sent.  [handleFooterUpdate] stays in edit mode with the
    text typed. *)
Theorem X12_failed_write_is_reported_and_not_refreshed
    (getToken : Completion (option jsstring))
    (unexpected : Stage -> option Thrown) (p : Page.t) (w : World) :
  (forall file e,
     fst (uploadAsset getApiBase getToken fetch
            (UploadAssetRequest.mk logo (Some file) None) w) = Throw e ->
     handleLogoUpload getApiBase getAssetBase getToken fetch unexpected file p w
     = (Return tt,
        Page.mk false (Page.isUpdating p) (Page.isDeleting p)
          (Page.editingFooter p) (Page.footerTextEdit p)
          (lit "Failed to upload logo. Please try again."),
        logged (errorEntry (lit "Error uploading logo:") e)
          (snd (uploadAsset getApiBase getToken fetch
                  (UploadAssetRequest.mk logo (Some file) None) w)))
     /\ hook (snd (handleLogoUpload getApiBase getAssetBase getToken fetch
                     unexpected file p w)) = hook w)
  /\ (forall e,
        fst (updateAsset getApiBase getToken fetch
               (UpdateAssetRequest.mk footer None (Some (Page.footerTextEdit p)))
               w) = Throw e ->
        handleFooterUpdate getApiBase getAssetBase getToken fetch unexpected p w
        = (Return tt,
           Page.mk (Page.isUploading p) false (Page.isDeleting p)
             (Page.editingFooter p) (Page.footerTextEdit p)
             (lit "Failed to update footer text. Please try again."),
           logged (errorEntry (lit "Error updating footer text:") e)
             (snd (updateAsset getApiBase getToken fetch
                     (UpdateAssetRequest.mk footer None
                        (Some (Page.footerTextEdit p))) w)))
        /\ hook (snd (handleFooterUpdate getApiBase getAssetBase getToken fetch
                        unexpected p w)) = hook w)
  /\ (forall t e,
        fst (deleteAsset getApiBase getToken fetch t w) = Throw e ->
        handleDeleteAsset getApiBase getAssetBase getToken fetch unexpected t p w
        = (Return tt,
           Page.mk (Page.isUploading p) (Page.isUpdating p) None
             (Page.editingFooter p) (Page.footerTextEdit p)
             (lit "Failed to delete " ++ typeName t ++ lit ". Please try again."),
           logged (errorEntry (lit "Error deleting " ++ typeName t ++ lit ":") e)
             (snd (deleteAsset getApiBase getToken fetch t w)))
        /\ hook (snd (handleDeleteAsset getApiBase getAssetBase getToken fetch
                        unexpected t p w)) = hook w).
Proof.
  split; [|split].
  - intros file e T. rewrite handleLogoUpload_run.
    pose proof (writeAsset_hook getToken POST (lit "upload") (lit "uploading")
                  (UploadAssetRequest.mk logo (Some file) None) w) as H.
    rewrite <- uploadAsset_writeAsset in H.
    destruct (uploadAsset _ _ _ _ w) as [c w1]. simpl in T, H. subst c.
    split; [reflexivity | exact H].
  - intros e T. rewrite handleFooterUpdate_run.
    pose proof (writeAsset_hook getToken PUT (lit "update") (lit "updating")
                  (UpdateAssetRequest.mk footer None
                     (Some (Page.footerTextEdit p))) w) as H.
    rewrite <- updateAsset_writeAsset in H.
    destruct (updateAsset _ _ _ _ w) as [c w1]. simpl in T, H. subst c.
    split; [reflexivity | exact H].
  - intros t e T. rewrite handleDeleteAsset_run.
    pose proof (deleteAsset_hook getToken t w) as H.
    destruct (deleteAsset _ _ _ _ w) as [c w1]. simpl in T, H. subst c.
    split; [reflexivity | exact H].
Qed.

(** X13: when the write of a handler returns, the handler runs one
    resolution round on the world the write left, so the hook ends as a
    round leaves it, and then shows its success message with its busy flag
    reset; [handleFooterUpdate] leaves edit mode. *)
Theorem X13_successful_write_is_followed_by_a_round
    (getToken : Completion (option jsstring))
    (unexpected : Stage -> option Thrown) (p : Page.t) (w : World) :
  (forall file v,
     fst (uploadAsset getApiBase getToken fetch
            (UploadAssetRequest.mk logo (Some file) None) w) = Return v ->
     handleLogoUpload getApiBase getAssetBase getToken fetch unexpected file p w
     = (Return tt,
        Page.mk false (Page.isUpdating p) (Page.isDeleting p)
          (Page.editingFooter p) (Page.footerTextEdit p)
          (lit "Logo uploaded successfully!"),
        snd (refreshAssets getApiBase getAssetBase fetch unexpected
               (snd (uploadAsset getApiBase getToken fetch
                       (UploadAssetRequest.mk logo (Some file) None) w))))
     /\ hook (snd (handleLogoUpload getApiBase getAssetBase getToken fetch
                     unexpected file p w))
        = hook (snd (refreshAssets getApiBase getAssetBase fetch unexpected w)))
  /\ (forall v,
        fst (updateAsset getApiBase getToken fetch
               (UpdateAssetRequest.mk footer None (Some (Page.footerTextEdit p)))
               w) = Return v ->
        handleFooterUpdate getApiBase getAssetBase getToken fetch unexpected p w
        = (Return tt,
           Page.mk (Page.isUploading p) false (Page.isDeleting p) false
             (Page.footerTextEdit p) (lit "Footer text updated successfully!"),
           snd (refreshAssets getApiBase getAssetBase fetch unexpected
                  (snd (updateAsset getApiBase getToken fetch
                          (UpdateAssetRequest.mk footer None
                             (Some (Page.footerTextEdit p))) w))))
        /\ hook (snd (handleFooterUpdate getApiBase getAssetBase getToken fetch
                        unexpected p w))
           = hook (snd (refreshAssets getApiBase getAssetBase fetch unexpected w)))
  /\ (forall t v,
        fst (deleteAsset getApiBase getToken fetch t w) = Return v ->
        handleDeleteAsset getApiBase getAssetBase getToken fetch unexpected t p w
        = (Return tt,
           Page.mk (Page.isUploading p) (Page.isUpdating p) None
             (Page.editingFooter p) (Page.footerTextEdit p)
             (typeName t ++ lit " deleted successfully!"),
           snd (refreshAssets getApiBase getAssetBase fetch unexpected
                  (snd (deleteAsset getApiBase getToken fetch t w))))
        /\ hook (snd (handleDeleteAsset getApiBase getAssetBase getToken fetch
                        unexpected t p w))
           = hook (snd (refreshAssets getApiBase getAssetBase fetch unexpected w))).
Proof.
  split; [|split].
  - intros file v T. rewrite handleLogoUpload_run.
    destruct (uploadAsset _ _ _ _ w) as [c w1]. simpl in T. subst c.
    split; [reflexivity | apply refreshAssets_hook_fresh].
  - intros v T. rewrite handleFooterUpdate_run.
    destruct (updateAsset _ _ _ _ w) as [c w1]. simpl in T. subst c.
    split; [reflexivity | apply refreshAssets_hook_fresh].
  - intros t v T. rewrite handleDeleteAsset_run.
    destruct (deleteAsset _ _ _ _ w) as [c w1]. simpl in T. subst c.
    split; [reflexivity | apply refreshAssets_hook_fresh].
Qed.


(** X14: after a handler has run, the banner is drawn as an error exactly
    when the write threw. *)
Theorem X14_banner_is_an_error_exactly_on_a_failed_write
    (getToken : Completion (option jsstring))
    (unexpected : Stage -> option Thrown) (p : Page.t) (w : World) :
  (forall file,
     Page.drawnAsError
       (snd (fst (handleLogoUpload getApiBase getAssetBase getToken fetch
                    unexpected file p w)))
     = match fst (uploadAsset getApiBase getToken fetch
                    (UploadAssetRequest.mk logo (Some file) None) w) with
       | Return _ => false
       | Throw _ => true
       end)
  /\ Page.drawnAsError
       (snd (fst (handleFooterUpdate getApiBase getAssetBase getToken fetch
                    unexpected p w)))
     = match fst (updateAsset getApiBase getToken fetch
                    (UpdateAssetRequest.mk footer None
                       (Some (Page.footerTextEdit p))) w) with
       | Return _ => false
       | Throw _ => true
       end
  /\ (forall t,
        Page.drawnAsError
          (snd (fst (handleDeleteAsset getApiBase getAssetBase getToken fetch
                       unexpected t p w)))
        = match fst (deleteAsset getApiBase getToken fetch t w) with
          | Return _ => false
          | Throw _ => true
          end).
Proof.
  split; [|split].
  - intros file. rewrite handleLogoUpload_run.
    destruct (uploadAsset _ _ _ _ w) as [[v|e] w1]; reflexivity.
  - rewrite handleFooterUpdate_run.
    destruct (updateAsset _ _ _ _ w) as [[v|e] w1]; reflexivity.
  - intros t. rewrite handleDeleteAsset_run.
    destruct (deleteAsset _ _ _ _ w) as [[v|e] w1]; destruct t; reflexivity.
Qed.

Lemma handleLogoUpload_network (token : option jsstring)
    (unexpected : Stage -> option Thrown) (file : File) (p : Page.t) (w : World) :
  exists rest,
    network (snd (handleLogoUpload getApiBase getAssetBase (Return token) fetch
                    unexpected file p w))
    = network w
      ++ writeRequest getApiBase POST token
           (UploadAssetRequest.mk logo (Some file) None) :: rest.
Proof.
  rewrite handleLogoUpload_run.
  pose proof (writeAsset_network getApiBase fetch POST (lit "upload")
                (lit "uploading") token
                (UploadAssetRequest.mk logo (Some file) None) w) as N.
  rewrite <- uploadAsset_writeAsset in N.
  destruct (uploadAsset _ _ _ _ w) as [[v|e] w1]; simpl in N.
  - simpl. rewrite refreshAssets_network, N, <- app_assoc. eexists. reflexivity.
  - simpl. rewrite N. exists []. reflexivity.
Qed.

(** X15: [handleLogoFileSelect] sends nothing and leaves the hook alone
    for a file whose type does not start with "image/" or whose size is
    above 2097152 bytes; it only sets a message, which is not drawn as an
    error.  A file of an image type and of at most 2097152 bytes, that
    size included, is uploaded: the POST with the file goes out.  With no
    file nothing happens. *)
Theorem X15_file_is_uploaded_only_if_image_of_at_most_2MiB
    (token : option jsstring) (unexpected : Stage -> option Thrown)
    (file : File) (p : Page.t) (w : World) :
  (startsWith (file_type file) (lit "image/") = false ->
   handleLogoFileSelect getApiBase getAssetBase (Return token) fetch unexpected
     (Some file) p w
   = (Return tt, withMessage (lit "Please select a valid image file.") p, w))
  /\ (startsWith (file_type file) (lit "image/") = true ->
      (2097152 < file_size file)%N ->
      handleLogoFileSelect getApiBase getAssetBase (Return token) fetch
        unexpected (Some file) p w
      = (Return tt, withMessage (lit "File size must be less than 2MB.") p, w))
  /\ (startsWith (file_type file) (lit "image/") = true ->
      (file_size file <= 2097152)%N ->
      exists rest,
        network (snd (handleLogoFileSelect getApiBase getAssetBase
                        (Return token) fetch unexpected (Some file) p w))
        = network w
          ++ writeRequest getApiBase POST token
               (UploadAssetRequest.mk logo (Some file) None) :: rest)
  /\ Page.drawnAsError (withMessage (lit "Please select a valid image file.") p)
     = false
  /\ Page.drawnAsError (withMessage (lit "File size must be less than 2MB.") p)
     = false
  /\ handleLogoFileSelect getApiBase getAssetBase (Return token) fetch
       unexpected None p w
     = (Return tt, p, w).
Proof.
  unfold handleLogoFileSelect.
  change (2 * 1024 * 1024)%N with 2097152%N.
  repeat split.
  - intros T. now rewrite T.
  - intros T S. rewrite T. simpl.
    destruct (N.ltb_spec 2097152 (file_size file)); [reflexivity | lia].
  - intros T S. rewrite T. simpl.
    destruct (N.ltb_spec 2097152 (file_size file)); [lia|].
    apply handleLogoUpload_network.
Qed.

(** X16: [handleFooterUpdate] sends, first, one PUT whose form holds the
    asset type and the text of the editor exactly as typed, white space
    included; an empty text is left out of the form altogether. *)
Theorem X16_footer_text_is_sent_as_typed
    (token : option jsstring) (unexpected : Stage -> option Thrown)
    (p : Page.t) (w : World) :
  exists rest,
    network (snd (handleFooterUpdate getApiBase getAssetBase (Return token)
                    fetch unexpected p w))
    = network w
      ++ {| input := baseUrl getApiBase;
            method := PUT;
            headers := [(lit "authorization", lit "Bearer " ++ toString token)];
            body := Some ((lit "AssetType", FormText (lit "footer"))
                          :: if nonEmpty (Page.footerTextEdit p)
                             then [(lit "Text", FormText (Page.footerTextEdit p))]
                             else []) |} :: rest.
Proof.
  rewrite handleFooterUpdate_run.
  pose proof (writeAsset_network getApiBase fetch PUT (lit "update")
                (lit "updating") token
                (UpdateAssetRequest.mk footer None (Some (Page.footerTextEdit p)))
                w) as N.
  rewrite <- updateAsset_writeAsset in N.
  unfold writeRequest, formDataOf in N. simpl in N.
  destruct (updateAsset _ _ _ _ w) as [[v|e] w1]; simpl in N; simpl.
  - rewrite refreshAssets_network, N, <- app_assoc. eexists. reflexivity.
  - rewrite N. exists []. reflexivity.
Qed.

End MoreProperties.

(** ** The further properties at concrete backends *)

Import MoreSample.

(** X1 at a 404: for the list of all assets, not found is an error. *)
Lemma X1_witness_list_not_found :
  Response.status notFound = 404%Z
  /\ getAllAssets apiBase (always (Return notFound)) noAssets world0
     = (Throw (ErrorObject (lit "Failed to fetch branding assets: Not Found")),
        logged (errorEntry (lit "Error fetching branding assets:")
                  (ErrorObject (lit "Failed to fetch branding assets: Not Found")))
          (sent (getAllAssetsRequest apiBase) world0)).
Proof.
  split; [reflexivity|].
  exact (@X1_getAllAssets_throws_on_every_non_2xx apiBase
           (always (Return notFound)) noAssets notFound world0
           eq_refl eq_refl).
Defined.

(** X9 at a backend whose logo read fails on the network. *)
Lemma X9_witness_logo_down :
  UseLogo.logoUrl (snd (fst (loadLogo apiBase assetBase logoDownFooterUp
                               (useLogo assetBase) world0)))
  = lit "/assets/logo/cx-logo.svg"
  /\ logoUrl (hook (snd (refreshAssets apiBase assetBase logoDownFooterUp
                           noFault world0)))
     = lit "https://assets.example/images/logos/cx-text.svg".
Proof.
  destruct (@X9_the_two_hooks_fall_back_to_different_logos apiBase assetBase
              logoDownFooterUp (useLogo assetBase) world0
              (or_intror (ex_intro _ (ErrorObject (lit "Failed to fetch")) eq_refl)))
    as [A [B _]].
  split; [exact A | exact B].
Defined.

(** X12 at a backend that answers every request with a 500: the upload is
    reported as failed and the hook keeps its values. *)
Lemma X12_witness_upload_rejected_with_500 :
  snd (fst (handleLogoUpload apiBase assetBase (Return (Some (lit "t0k")))
              (always (Return serverError)) noFault logoFile Page.initial world0))
  = Page.mk false false None false []
      (lit "Failed to upload logo. Please try again.")
  /\ hook (snd (handleLogoUpload apiBase assetBase (Return (Some (lit "t0k")))
                  (always (Return serverError)) noFault logoFile Page.initial
                  world0))
     = hook world0.
Proof.
  destruct (X12_failed_write_is_reported_and_not_refreshed apiBase assetBase
              (always (Return serverError)) (Return (Some (lit "t0k")))
              noFault Page.initial world0) as [U _].
  destruct (U logoFile
              (ErrorObject (lit "Failed to upload asset: Internal Server Error - boom"))
              eq_refl) as [E H].
  split; [rewrite E; reflexivity | exact H].
Defined.

(** X13 at a backend that answers every request with the custom logo: the
    upload is followed by a round that adopts the logo. *)
Lemma X13_witness_upload_then_round :
  snd (fst (handleLogoUpload apiBase assetBase (Return (Some (lit "t0k")))
              (always (Return (okResponse (Some (logoAssetWith (Some customLogo))))))
              noFault logoFile Page.initial world0))
  = Page.mk false false None false [] (lit "Logo uploaded successfully!")
  /\ logoUrl (hook (snd (handleLogoUpload apiBase assetBase
                           (Return (Some (lit "t0k")))
                           (always (Return (okResponse
                                              (Some (logoAssetWith (Some customLogo))))))
                           noFault logoFile Page.initial world0)))
     = customLogo.
Proof.
  destruct (X13_successful_write_is_followed_by_a_round apiBase assetBase
              (always (Return (okResponse (Some (logoAssetWith (Some customLogo))))))
              (Return (Some (lit "t0k"))) noFault Page.initial world0) as [U _].
  destruct (U logoFile (Some (logoAssetWith (Some customLogo))) eq_refl)
    as [E H].
  split; [rewrite E; reflexivity | rewrite H; reflexivity].
Defined.

(** X15 at a text file, at an image one byte above 2 MiB and at an image
    of exactly 2 MiB. *)
Lemma X15_witness_three_files :
  network (snd (handleLogoFileSelect apiBase assetBase (Return None)
                  (always (Return serverError)) noFault (Some textFile)
                  Page.initial world0)) = []
  /\ network (snd (handleLogoFileSelect apiBase assetBase (Return None)
                     (always (Return serverError)) noFault (Some bigFile)
                     Page.initial world0)) = []
  /\ network (snd (handleLogoFileSelect apiBase assetBase (Return None)
                     (always (Return serverError)) noFault (Some logoFile)
                     Page.initial world0))
     = [writeRequest apiBase POST None
          (UploadAssetRequest.mk logo (Some logoFile) None)].
Proof.
  split; [|split].
  - rewrite (proj1 (X15_file_is_uploaded_only_if_image_of_at_most_2MiB apiBase
                      assetBase (always (Return serverError)) None noFault
                      textFile Page.initial world0) eq_refl).
    reflexivity.
  - rewrite (proj1 (proj2 (X15_file_is_uploaded_only_if_image_of_at_most_2MiB
                             apiBase assetBase (always (Return serverError)) None
                             noFault bigFile Page.initial world0))
               eq_refl eq_refl).
    reflexivity.
  - reflexivity.
Defined.
